(** * fuzzbench: OSS-Fuzz benchmark integration and Makefile rule generation

    A shallow embedding of

    - [benchmarks/oss_fuzz_benchmark_integration.py]: the index of
      base-builder digests ([BaseBuilderRepo]), the rewrite of a Dockerfile's
      parent image and the orchestration of one benchmark integration;
    - [docker/generate_makefile.py]: the generator of the local Makefile
      rules for every fuzzer, fuzzer variant and benchmark.

    Python values are modelled as follows.  A [str] is a [string]; a timezone
    aware [datetime] is a [Z] (an instant on the UTC time line, compared with
    [Z.ltb]); a [list] is a [list]; a [dict] whose iteration order matters is
    an association list; an exception is a constructor of [exn] carried by
    [result].  Calls to external processes and to the file system are
    recorded as a trace of [event]s, in program order; what the outside world
    answers is a field of an environment record.  A global name a function
    uses is looked up in the names its file binds; a name the file never
    binds raises [NameError] where it is used.

    The generator is embedded twice: as the sequence of makefile statements
    it prints, a function of the two directory listings
    ([GenerateMakefile]), and as the program that prints them, a
    state-passing computation over the file system and the standard output
    ([Script]). *)

From Equations Require Import Equations.
From Stdlib Require Import List ZArith Lia String Ascii Bool Arith.
From Stdlib Require Import DecimalString.
Import ListNotations.

Local Open Scope list_scope.
Local Open Scope string_scope.

(** ** Python built-ins and standard library functions used by the sources *)

Module Py.

(** Exceptions the modelled code raises or lets through. *)
Inductive exn : Type :=
| ValueError (msg : string)
| RuntimeError (msg : string)
| IndexError
| NameError (name : string)
| FileNotFoundError (path : string)
| DistutilsFileError (msg : string).

Inductive result (A : Type) : Type :=
| Ok (a : A)
| Raise (e : exn).
Arguments Ok {A} a.
Arguments Raise {A} e.

Definition LF : string := String (ascii_of_nat 10) "".
Definition TAB : string := String (ascii_of_nat 9) "".
Definition DQUOTE : string := String (ascii_of_nat 34) "".
Definition SQUOTE : string := String (ascii_of_nat 39) "".
Definition BACKSLASH : string := String (ascii_of_nat 92) "".

(** [sep.join(parts)] *)
Fixpoint join (sep : string) (parts : list string) : string :=
  match parts with
  | [] => ""
  | [p] => p
  | p :: rest => p ++ sep ++ join sep rest
  end.

(** [bisect.bisect_right(a, x)] with the default bounds [lo=0],
    [hi=len(a)]: the loop
    [while lo < hi: mid = (lo + hi) // 2;
       if x < a[mid]: hi = mid else: lo = mid + 1]. *)
Equations? bisect_loop (a : list Z) (x : Z) (lo hi : nat) : nat
  by wf (hi - lo) lt :=
  bisect_loop a x lo hi with lt_dec lo hi => {
    | right _ => lo ;
    | left _ with (x <? nth ((lo + hi) / 2) a 0)%Z => {
        | true => bisect_loop a x lo ((lo + hi) / 2) ;
        | false => bisect_loop a x ((lo + hi) / 2 + 1) hi } }.
Proof.
  all: change (fst (Nat.divmod (lo + hi) 1 0 1)) with ((lo + hi) / 2);
    assert (Hd := Nat.div_mod_eq (lo + hi) 2);
    assert (Hm := Nat.mod_upper_bound (lo + hi) 2); lia.
Qed.

Definition bisect_right (a : list Z) (x : Z) : nat :=
  bisect_loop a x 0 (List.length a).

(** [str.isspace] on the code points below 128: tab, line feed, vertical
    tab, form feed, carriage return, the four separators 28 to 31 and the
    space. *)
Definition is_space (c : ascii) : bool :=
  let n := nat_of_ascii c in
  (((9 <=? n) && (n <=? 13)) || ((28 <=? n) && (n <=? 32)))%nat%bool.

Fixpoint lstrip (s : string) : string :=
  match s with
  | String c rest => if is_space c then lstrip rest else s
  | EmptyString => EmptyString
  end.

Fixpoint rstrip (s : string) : string :=
  match s with
  | String c rest =>
      match rstrip rest with
      | EmptyString => if is_space c then EmptyString else String c EmptyString
      | r => String c r
      end
  | EmptyString => EmptyString
  end.

(** [s.strip()] *)
Definition strip (s : string) : string := rstrip (lstrip s).

(** [s.startswith(p)] *)
Fixpoint startswith (s p : string) {struct p} : bool :=
  match p with
  | EmptyString => true
  | String a p' =>
      match s with
      | EmptyString => false
      | String b s' => Ascii.eqb a b && startswith s' p'
      end
  end.

Fixpoint endswith_char (s : string) (c : ascii) : bool :=
  match s with
  | EmptyString => false
  | String d EmptyString => Ascii.eqb d c
  | String _ rest => endswith_char rest c
  end.

(** [handle.readlines()] of a file opened in text mode: the text is cut
    after every line feed, and each line keeps its terminator; a last line
    without terminator is kept as it is.  The argument is the text as the
    text layer presents it. *)
Fixpoint readlines (text : string) : list string :=
  match text with
  | EmptyString => []
  | String c rest =>
      if Ascii.eqb c (ascii_of_nat 10) then LF :: readlines rest
      else match readlines rest with
           | [] => [String c EmptyString]
           | line :: lines => String c line :: lines
           end
  end.

(** [''.join(lines)] *)
Definition concat_lines (lines : list string) : string := join "" lines.

(** [os.path.join(a, b)] on a POSIX system. *)
Definition path_join (a b : string) : string :=
  if startswith b "/" then b
  else if (String.eqb a "" || endswith_char a "/"%char)%bool then a ++ b
  else a ++ "/" ++ b.

End Py.

(** ** benchmarks/oss_fuzz_benchmark_integration.py *)

(** The names the file binds at its top level, in the order of the file:
    its [import] statements (lines 17 to 24, 26 and 42 to 44), its two
    constants, its classes and its functions.  A name a function uses and
    does not bind itself is looked up here when the statement runs (the
    names at stake below, [bisect] and [json], are no built-in names
    either). *)
Module Globals.
Import Py.

Definition names : list string :=
  ["argparse"; "datetime"; "dir_util"; "spawn"; "os"; "logging"; "sys";
   "subprocess"; "utils";
   "OSS_FUZZ_DIR"; "OSS_FUZZ_REPO_PATH";
   "benchmark_utils"; "logs"; "yaml_utils";
   "BaseRepoManager"; "BaseBuilderRepo"; "execute"; "copy_dir_contents";
   "copy_oss_fuzz_files"; "get_benchmark_name"; "_load_base_builder_repo";
   "_replace_base_builder_digest"; "replace_base_builder";
   "create_oss_fuzz_yaml"; "integrate_benchmark"; "main"].

(** Evaluating the global name [name]: a [NameError] when nothing binds
    it. *)
Definition lookup (name : string) : result unit :=
  if existsb (String.eqb name) names then Ok tt else Raise (NameError name).

End Globals.

Module BaseBuilderRepo.
Import Py.

(** [class BaseBuilderRepo]: two parallel lists. *)
Record t : Type := mk {
  timestamps : list Z;
  digests : list string
}.

(** [__init__] *)
Definition init : t := {| timestamps := []; digests := [] |}.

(** [add_digest(self, timestamp, digest)] *)
Definition add_digest (self : t) (timestamp : Z) (digest : string) : t :=
  {| timestamps := (timestamps self ++ [timestamp])%list;
     digests := (digests self ++ [digest])%list |}.

(** The statements of [find_digest] in a module where the name [bisect]
    is bound to Python's standard module: what the method computes once
    [import bisect] is added to the file. *)
Definition find_digest_with_bisect (self : t) (timestamp : Z)
  : result string :=
  let index := bisect_right (timestamps self) timestamp in
  if Nat.ltb 0 index then
    match nth_error (digests self) (index - 1) with
    | Some d => Ok d
    | None => Raise IndexError
    end
  else Raise (ValueError "Failed to find suitable base-builder.").

(** [find_digest(self, timestamp)].  Its first statement (line 82)
    evaluates the global name [bisect]; the file does not import the
    module, so the lookup raises before anything is searched. *)
Definition find_digest (self : t) (timestamp : Z) : result string :=
  match Globals.lookup "bisect" with
  | Raise e => Raise e
  | Ok _ => find_digest_with_bisect self timestamp
  end.

(** An index fed with a stream of (timestamp, digest) pairs, in order. *)
Definition populate (entries : list (Z * string)) : t :=
  fold_left (fun repo e => add_digest repo (fst e) (snd e)) entries init.

(** The documented precondition: the feed is in non-decreasing order. *)
Fixpoint non_decreasing (ts : list Z) : bool :=
  match ts with
  | [] => true
  | x :: rest =>
      match rest with
      | [] => true
      | y :: _ => (x <=? y)%Z && non_decreasing rest
      end
  end.

End BaseBuilderRepo.

Module Integration.
Import Py.

(** *** Effects *)

(** The manifest written to [oss-fuzz.yaml] (the dict [config]). *)
Record manifest : Type := {
  project : string;
  fuzz_target : string;
  commit : option string;
  commit_date : Z;
  repo_path : string
}.

(** What the program does to the outside world, in program order. *)
Inductive event : Type :=
| Chdir (path : string)
| Exec (command : list string) (location : string)
| LogDebug (msg : string)
| LogInfo (msg : string)
| LogWarning (msg : string)
| CopyTree (src dst : string)
| ReadFile (path : string)
| WriteFile (path content : string)
| YamlWrite (path : string) (config : manifest).

(** One element of the JSON list printed by [gcloud ... list-tags]:
    [image['timestamp']['datetime']] and [image['digest']]. *)
Record image : Type := {
  image_datetime : string;
  image_digest : string
}.

(** What the outside world and the parsing libraries answer.
    [ROOT_DIR] and [BENCHMARKS_DIR] are the constants of [common.utils] and
    [common.benchmark_utils]; [run command location] is what a process
    started with [subprocess.Popen(command, cwd=location)] prints on its
    standard output and error, and its return code; [file_text path] is
    the text found when [path] is opened for reading. *)
Record env : Type := {
  ROOT_DIR : string;
  BENCHMARKS_DIR : string;
  run : list string -> string -> string * string * Z;
  find_executable : string -> option string;
  copy_tree : string -> string -> option exn;
  file_text : string -> option string;
  fromisoformat : string -> option Z;
  isoformat : Z -> string;
  json_loads : string -> option (list image)
}.

(** The process state the code reads and writes: the working directory and
    the trace of effects so far. *)
Record state : Type := {
  cwd : string;
  trace : list event
}.

(** A computation may raise, and changes the state either way. *)
Definition M (A : Type) : Type := state -> result A * state.

Definition ret {A} (a : A) : M A := fun s => (Ok a, s).

Definition bind {A B} (m : M A) (k : A -> M B) : M B :=
  fun s => match m s with
           | (Ok a, s') => k a s'
           | (Raise e, s') => (Raise e, s')
           end.

Definition raise {A} (e : exn) : M A := fun s => (Raise e, s).

Definition emit (ev : event) : M unit :=
  fun s => (Ok tt, {| cwd := cwd s; trace := (trace s ++ [ev])%list |}).

Definition getcwd : M string := fun s => (Ok (cwd s), s).

(** [os.chdir(path)]; the directory is taken to exist. *)
Definition chdir (path : string) : M unit :=
  fun s => (Ok tt, {| cwd := path; trace := (trace s ++ [Chdir path])%list |}).

(** [try: body finally: handler]: the handler runs whether the body
    returns or raises; the outcome is the body's unless the handler
    raises. *)
Definition try_finally {A} (body : M A) (handler : M unit) : M A :=
  fun s => let (r, s') := body s in
           match handler s' with
           | (Ok _, s'') => (r, s'')
           | (Raise e, s'') => (Raise e, s'')
           end.

Declare Scope monad_scope.
Delimit Scope monad_scope with monad.
Notation "x <- m ;; k" := (bind m (fun x => k))
  (at level 61, m at next level, right associativity) : monad_scope.
Notation "' pat <- m ;; k" :=
  (bind m (fun x => match x with pat => k end))
  (at level 61, pat pattern, m at next level, right associativity)
  : monad_scope.
Notation "m ;;; k" := (bind m (fun _ => k))
  (at level 61, right associativity) : monad_scope.
Local Open Scope monad_scope.

Section WithEnv.
Variable E : env.

Definition OSS_FUZZ_DIR : string :=
  path_join (path_join (ROOT_DIR E) "third_party") "oss-fuzz".

(** [execute(command, location=None, check_result=False)] *)
Definition execute (command : list string) (location : option string)
           (check_result : bool) : M (string * string * Z) :=
  location <- match location with
              | Some l => if String.eqb l "" then getcwd else ret l
              | None => getcwd
              end ;;
  emit (Exec command location) ;;;
  let '(out, err, returncode) := run E command location in
  (if String.eqb err "" then ret tt
   else emit (LogDebug ("Stderr of command '" ++ join " " command
                          ++ "' is " ++ err ++ "."))) ;;;
  if (check_result && negb (returncode =? 0)%Z)%bool then
    raise (RuntimeError ("Executing command '" ++ join " " command
                           ++ "' failed with error: " ++ err ++ "."))
  else ret (out, err, returncode).

(** [BaseRepoManager(repo_dir).git(cmd, check_result)] *)
Definition git (repo_dir : string) (cmd : list string)
           (check_result : bool) : M (string * string * Z) :=
  execute ("git" :: cmd) (Some repo_dir) check_result.

(** [copy_dir_contents(src_dir, dst_dir)] *)
Definition copy_dir_contents (src_dir dst_dir : string) : M unit :=
  emit (CopyTree src_dir dst_dir) ;;;
  match copy_tree E src_dir dst_dir with
  | Some e => raise e
  | None => ret tt
  end.

(** [copy_oss_fuzz_files(project, commit_date, benchmark_dir)] *)
Definition copy_oss_fuzz_files (project : string) (commit_date : Z)
           (benchmark_dir : string) : M bool :=
  cwd <- getcwd ;;
  let projects_dir :=
    path_join (path_join OSS_FUZZ_DIR "projects") project in
  chdir OSS_FUZZ_DIR ;;;
  try_finally
    ('(oss_fuzz_commit, _, _) <-
       git OSS_FUZZ_DIR
         ["log"; "--before=" ++ isoformat E commit_date; "-n1";
          "--format=%H"; projects_dir] true ;;
     let oss_fuzz_commit := strip oss_fuzz_commit in
     if String.eqb oss_fuzz_commit "" then
       emit (LogWarning "No suitable earlier OSS-Fuzz commit found.") ;;;
       ret false
     else
       git OSS_FUZZ_DIR ["checkout"; oss_fuzz_commit; projects_dir] true ;;;
       copy_dir_contents projects_dir benchmark_dir ;;;
       ret true)
    (git OSS_FUZZ_DIR ["reset"; "--hard"] false ;;;
     chdir cwd).

(** [get_benchmark_name(project, fuzz_target, benchmark_name=None)] *)
Definition get_benchmark_name (project fuzz_target : string)
           (benchmark_name : option string) : string :=
  match benchmark_name with
  | Some name => name
  | None => project ++ "_" ++ fuzz_target
  end.

(** The loop of [_load_base_builder_repo]: it only binds [timestamp] and
    [image]; the result is the last image and its parsed timestamp, if
    the list has one. *)
Fixpoint last_image (images : list image) (seen : option (Z * image))
  : result (option (Z * image)) :=
  match images with
  | [] => Ok seen
  | image :: rest =>
      match fromisoformat E (image_datetime image) with
      | Some timestamp => last_image rest (Some (timestamp, image))
      | None => Raise (ValueError "Invalid isoformat string")
      end
  end.

(** Evaluating a global name inside a computation. *)
Definition lookup_global (name : string) : M unit :=
  match Globals.lookup name with
  | Ok _ => ret tt
  | Raise e => raise e
  end.

(** [_load_base_builder_repo()].  After [gcloud] has run, line 180
    evaluates the global name [json], which the file does not import: the
    lookup raises.  The statements after it are those of a module where
    [json] is bound: the call of [add_digest] stands after the loop, at the
    indentation of the [for], so it runs once, on the names the loop bound
    last, which are unbound when the list is empty. *)
Definition _load_base_builder_repo : M (option BaseBuilderRepo.t) :=
  match find_executable E "gcloud" with
  | None =>
      emit (LogWarning "gcloud not found in PATH.") ;;; ret None
  | Some gcloud_path =>
      if String.eqb gcloud_path "" then
        emit (LogWarning "gcloud not found in PATH.") ;;; ret None
      else
        '(result, _, _) <-
          execute [gcloud_path; "container"; "images"; "list-tags";
                   "gcr.io/oss-fuzz-base/base-builder"; "--format=json";
                   "--sort-by=timestamp"] None true ;;
        lookup_global "json" ;;;
        match json_loads E result with
        | None => raise (ValueError "JSONDecodeError")
        | Some images =>
            let repo := BaseBuilderRepo.init in
            match last_image images None with
            | Raise e => raise e
            | Ok None => raise (NameError "timestamp")
            | Ok (Some (timestamp, image)) =>
                ret (Some (BaseBuilderRepo.add_digest repo timestamp
                             (image_digest image)))
            end
        end
  end.

(** The body of the loop of [_replace_base_builder_digest]. *)
Definition replace_line (digest line : string) : string :=
  if startswith (strip line) "FROM" then
    "FROM gcr.io/oss-fuzz-base/base-builder@" ++ digest ++ LF
  else line.

(** The text [_replace_base_builder_digest] writes back, from the text
    it read. *)
Definition replace_text (digest text : string) : string :=
  concat_lines (map (replace_line digest) (readlines text)).

(** [_replace_base_builder_digest(dockerfile_path, digest)] *)
Definition _replace_base_builder_digest (dockerfile_path digest : string)
  : M unit :=
  emit (ReadFile dockerfile_path) ;;;
  match file_text E dockerfile_path with
  | None => raise (FileNotFoundError dockerfile_path)
  | Some text =>
      emit (WriteFile dockerfile_path (replace_text digest text))
  end.

(** [replace_base_builder(benchmark_dir, commit_date)] *)
Definition replace_base_builder (benchmark_dir : string) (commit_date : Z)
  : M unit :=
  base_builder_repo <- _load_base_builder_repo ;;
  match base_builder_repo with
  | Some repo =>
      match BaseBuilderRepo.find_digest repo commit_date with
      | Raise e => raise e
      | Ok base_builder_digest =>
          emit (LogInfo ("Using base-builder with digest "
                           ++ base_builder_digest ++ ".")) ;;;
          _replace_base_builder_digest
            (path_join benchmark_dir "Dockerfile") base_builder_digest
      end
  | None => ret tt
  end.

(** [create_oss_fuzz_yaml(project, fuzz_target, commit, commit_date,
    repo_path, benchmark_dir)]; [yaml_utils.write], of [common], is taken to
    write the file. *)
Definition create_oss_fuzz_yaml (project fuzz_target : string)
           (commit : option string) (commit_date : Z)
           (repo_path benchmark_dir : string) : M unit :=
  let yaml_filename := path_join benchmark_dir "oss-fuzz.yaml" in
  emit (YamlWrite yaml_filename
          {| project := project; fuzz_target := fuzz_target;
             commit := commit; commit_date := commit_date;
             repo_path := repo_path |}).

(** [integrate_benchmark(project, fuzz_target, commit, commit_date,
    repo_path, benchmark_name=None)] *)
Definition integrate_benchmark (project fuzz_target : string)
           (commit : option string) (commit_date : string)
           (repo_path : string) (benchmark_name : option string)
  : M unit :=
  let benchmark_name :=
    get_benchmark_name project fuzz_target benchmark_name in
  let benchmark_dir := path_join (BENCHMARKS_DIR E) benchmark_name in
  match fromisoformat E commit_date with
  | None => raise (ValueError "Invalid isoformat string")
  | Some commit_date =>
      copy_oss_fuzz_files project commit_date benchmark_dir ;;;
      replace_base_builder benchmark_dir commit_date ;;;
      create_oss_fuzz_yaml project fuzz_target commit commit_date
        repo_path benchmark_dir
  end.

End WithEnv.

End Integration.

(** ** docker/generate_makefile.py *)

Module GenerateMakefile.
Import Py.

(** *** The text the generator prints, as makefile statements *)

(** A rule: [target: prerequisites], followed by the lines of its recipe,
    each kept as the template writes it (leading tab or spaces, trailing
    backslash). *)
Record rule : Type := {
  target : string;
  prerequisites : list string;
  recipe : list string
}.

(** One statement of the printed text.  [Rule] is a rule of a template,
    [RuleAll] the one-line rule of a [print('...-all: ...')]. *)
Inductive line : Type :=
| Blank
| Comment (text : string)
| Assign (text : string)
| Rule (r : rule)
| RuleAll (r : rule).

(** A statement, or the conditional
    [ifeq (,$(filter fuzzer,coverage coverage_source_based))] ... [else]
    ... [endif] of the two benchmark templates. *)
Inductive item : Type :=
| Plain (l : line)
| Ifeq (fuzzer : string) (then_branch else_branch : list line).

Definition BASE_TAG : string := "gcr.io/fuzzbench".

Local Infix "+++" := (@List.app _) (at level 60, right associativity).

(** A recipe line continued on the next one. *)
Definition cont (s : string) : string := s ++ " " ++ BACKSLASH.

Definition BOILERPLATE : list item :=
  [Plain Blank;
   Plain (Assign "cache_from = $(if ${RUNNING_ON_CI},--cache-from {fuzzer},)")].

(** [FUZZER_TEMPLATE.format(fuzzer=, base_tag=)] *)
Definition FUZZER_TEMPLATE (fuzzer base_tag : string) : list item :=
  [Plain Blank;
   Plain (Rule {|
     target := "." ++ fuzzer ++ "-builder";
     prerequisites := ["base-builder"];
     recipe :=
       [cont (TAB ++ "docker build");
        cont ("    --tag " ++ base_tag ++ "/builders/" ++ fuzzer);
        cont ("    --file fuzzers/" ++ fuzzer ++ "/builder.Dockerfile");
        cont ("    $(call cache_from," ++ base_tag ++ "/builders/"
                ++ fuzzer ++ ")");
        "    fuzzers/" ++ fuzzer] |});
   Plain Blank;
   Plain (Rule {|
     target := ".pull-" ++ fuzzer ++ "-builder";
     prerequisites := ["pull-base-builder"];
     recipe := [TAB ++ "docker pull " ++ base_tag ++ "/builders/" ++ fuzzer]
   |})].

(** The three [docker run] recipes of the run-targets templates.  The
    OSS-Fuzz templates ([oss]) have two more [-e] lines than the standard
    ones. *)
Definition force_local (oss : bool) : list string :=
  if oss then [cont "    -e FORCE_LOCAL=1"] else [].

Definition fuzz_target_of (oss : bool) (benchmark : string) : list string :=
  if oss
  then [cont ("    -e FUZZ_TARGET=$(" ++ benchmark ++ "-fuzz-target)")]
  else [].

Definition run_recipe (oss : bool)
           (fuzzer fuzzer_variant_env benchmark base_tag : string)
  : list string :=
  [cont (TAB ++ "docker run");
   cont "    --cpus=1";
   cont "    --cap-add SYS_NICE";
   cont "    --cap-add SYS_PTRACE";
   cont "    -e FUZZ_OUTSIDE_EXPERIMENT=1"]
  +++ force_local oss +++
  [cont "    -e TRIAL_ID=1";
   cont ("    -e FUZZER=" ++ fuzzer);
   cont ("    -e BENCHMARK=" ++ benchmark)]
  +++ fuzz_target_of oss benchmark +++
  [cont ("    " ++ fuzzer_variant_env);
   "    -it " ++ base_tag ++ "/runners/" ++ fuzzer ++ "/" ++ benchmark].

Definition test_run_recipe (oss : bool)
           (fuzzer fuzzer_variant_env benchmark base_tag : string)
  : list string :=
  [cont (TAB ++ "docker run");
   cont "    --cap-add SYS_NICE";
   cont "    --cap-add SYS_PTRACE";
   cont "    -e FUZZ_OUTSIDE_EXPERIMENT=1"]
  +++ force_local oss +++
  [cont "    -e TRIAL_ID=1";
   cont ("    -e FUZZER=" ++ fuzzer);
   cont ("    -e BENCHMARK=" ++ benchmark)]
  +++ fuzz_target_of oss benchmark +++
  [cont "    -e MAX_TOTAL_TIME=20";
   cont "    -e SNAPSHOT_PERIOD=10";
   cont ("    " ++ fuzzer_variant_env);
   "    " ++ base_tag ++ "/runners/" ++ fuzzer ++ "/" ++ benchmark].

Definition debug_recipe (oss : bool)
           (fuzzer fuzzer_variant_env benchmark base_tag : string)
  : list string :=
  [cont (TAB ++ "docker run");
   cont "    --cpus=1";
   cont "    --cap-add SYS_NICE";
   cont "    --cap-add SYS_PTRACE";
   cont "    -e FUZZ_OUTSIDE_EXPERIMENT=1"]
  +++ force_local oss +++
  [cont "    -e TRIAL_ID=1";
   cont ("    -e FUZZER=" ++ fuzzer);
   cont ("    -e BENCHMARK=" ++ benchmark)]
  +++ fuzz_target_of oss benchmark +++
  [cont ("    " ++ fuzzer_variant_env);
   cont ("    --entrypoint " ++ DQUOTE ++ "/bin/bash" ++ DQUOTE);
   "    -it " ++ base_tag ++ "/runners/" ++ fuzzer ++ "/" ++ benchmark].

(** The five convenience rules over a runner target: the common shape of
    [FUZZER_BENCHMARK_RUN_TARGETS_TEMPLATE] (the runner is
    [.fuzzer-benchmark-runner]) and of
    [OSS_FUZZER_BENCHMARK_RUN_TARGETS_TEMPLATE] (the runner is
    [.fuzzer-benchmark-oss-fuzz-runner]). *)
Definition runner_suffix (oss : bool) : string :=
  if oss then "-oss-fuzz-runner" else "-runner".

Definition run_targets (oss : bool)
           (fuzzer fuzzer_variant_name fuzzer_variant_env benchmark
              base_tag : string) : list line :=
  [Blank;
   Rule {| target := "build-" ++ fuzzer_variant_name ++ "-" ++ benchmark;
           prerequisites := ["." ++ fuzzer ++ "-" ++ benchmark ++ runner_suffix oss];
           recipe := [] |};
   Blank;
   Rule {| target := "pull-" ++ fuzzer_variant_name ++ "-" ++ benchmark;
           prerequisites :=
             [".pull-" ++ fuzzer ++ "-" ++ benchmark ++ runner_suffix oss];
           recipe := [] |};
   Blank;
   Rule {| target := "run-" ++ fuzzer_variant_name ++ "-" ++ benchmark;
           prerequisites := ["." ++ fuzzer ++ "-" ++ benchmark ++ runner_suffix oss];
           recipe := run_recipe oss fuzzer fuzzer_variant_env benchmark
                       base_tag |};
   Blank;
   Rule {| target := "test-run-" ++ fuzzer_variant_name ++ "-" ++ benchmark;
           prerequisites := ["." ++ fuzzer ++ "-" ++ benchmark ++ runner_suffix oss];
           recipe := test_run_recipe oss fuzzer fuzzer_variant_env
                       benchmark base_tag |};
   Blank;
   Rule {| target := "debug-" ++ fuzzer_variant_name ++ "-" ++ benchmark;
           prerequisites := ["." ++ fuzzer ++ "-" ++ benchmark ++ runner_suffix oss];
           recipe := debug_recipe oss fuzzer fuzzer_variant_env benchmark
                       base_tag |}].

(** [FUZZER_BENCHMARK_RUN_TARGETS_TEMPLATE.format(...)] *)
Definition FUZZER_BENCHMARK_RUN_TARGETS_TEMPLATE
           (fuzzer fuzzer_variant_name fuzzer_variant_env benchmark
              base_tag : string) : list line :=
  run_targets false fuzzer fuzzer_variant_name fuzzer_variant_env benchmark
    base_tag.

(** [OSS_FUZZER_BENCHMARK_RUN_TARGETS_TEMPLATE.format(...)] *)
Definition OSS_FUZZER_BENCHMARK_RUN_TARGETS_TEMPLATE
           (fuzzer fuzzer_variant_name fuzzer_variant_env benchmark
              base_tag : string) : list line :=
  run_targets true fuzzer fuzzer_variant_name fuzzer_variant_env benchmark
    base_tag.

(** [FUZZER_BENCHMARK_TEMPLATE.format(...)] *)
Definition FUZZER_BENCHMARK_TEMPLATE
           (fuzzer fuzzer_variant_name fuzzer_variant_env benchmark
              base_tag : string) : list item :=
  [Plain Blank;
   Plain (Rule {|
     target := "." ++ fuzzer ++ "-" ++ benchmark ++ "-builder";
     prerequisites := ["." ++ fuzzer ++ "-builder"];
     recipe :=
       [cont (TAB ++ "docker build");
        cont ("    --tag " ++ base_tag ++ "/builders/" ++ fuzzer ++ "/"
                ++ benchmark);
        cont ("    --build-arg fuzzer=" ++ fuzzer);
        cont ("    --build-arg benchmark=" ++ benchmark);
        cont ("    $(call cache_from," ++ base_tag ++ "/builders/" ++ fuzzer
                ++ "/" ++ benchmark ++ ")");
        cont "    --file docker/benchmark-builder/Dockerfile";
        "    ."] |});
   Plain Blank;
   Plain (Rule {|
     target := ".pull-" ++ fuzzer ++ "-" ++ benchmark ++ "-builder";
     prerequisites := [".pull-" ++ fuzzer ++ "-builder"];
     recipe := [TAB ++ "docker pull " ++ base_tag ++ "/builders/" ++ fuzzer
                  ++ "/" ++ benchmark] |});
   Plain Blank;
   Ifeq fuzzer
     ([Blank;
       Rule {|
         target := "." ++ fuzzer ++ "-" ++ benchmark
                     ++ "-intermediate-runner";
         prerequisites := ["base-runner"];
         recipe :=
           [cont (TAB ++ "docker build");
            cont ("    --tag " ++ base_tag ++ "/runners/" ++ fuzzer ++ "/"
                    ++ benchmark ++ "-intermediate");
            cont ("    --file fuzzers/" ++ fuzzer ++ "/runner.Dockerfile");
            cont ("    $(call cache_from," ++ base_tag ++ "/runners/"
                    ++ fuzzer ++ "/" ++ benchmark ++ "-intermediate)");
            "    fuzzers/" ++ fuzzer] |};
       Blank;
       Rule {|
         target := ".pull-" ++ fuzzer ++ "-" ++ benchmark
                     ++ "-intermediate-runner";
         prerequisites := ["pull-base-runner"];
         recipe := [TAB ++ "docker pull " ++ base_tag ++ "/runners/"
                      ++ fuzzer ++ "/" ++ benchmark ++ "-intermediate"] |};
       Blank;
       Rule {|
         target := "." ++ fuzzer ++ "-" ++ benchmark ++ "-runner";
         prerequisites :=
           ["." ++ fuzzer ++ "-" ++ benchmark ++ "-builder";
            "." ++ fuzzer ++ "-" ++ benchmark ++ "-intermediate-runner"];
         recipe :=
           [cont (TAB ++ "docker build");
            cont ("    --tag " ++ base_tag ++ "/runners/" ++ fuzzer ++ "/"
                    ++ benchmark);
            cont ("    --build-arg fuzzer=" ++ fuzzer);
            cont ("    --build-arg benchmark=" ++ benchmark);
            cont ("    $(call cache_from," ++ base_tag ++ "/runners/"
                    ++ fuzzer ++ "/" ++ benchmark ++ ")");
            cont "    --file docker/benchmark-runner/Dockerfile";
            "    ."] |};
       Blank;
       Rule {|
         target := ".pull-" ++ fuzzer ++ "-" ++ benchmark ++ "-runner";
         prerequisites :=
           [".pull-" ++ fuzzer ++ "-" ++ benchmark ++ "-builder";
            ".pull-" ++ fuzzer ++ "-" ++ benchmark
              ++ "-intermediate-runner"];
         recipe := [TAB ++ "docker pull " ++ base_tag ++ "/runners/"
                      ++ fuzzer ++ "/" ++ benchmark] |};
       Blank]
      +++ FUZZER_BENCHMARK_RUN_TARGETS_TEMPLATE fuzzer fuzzer_variant_name
            fuzzer_variant_env benchmark base_tag
      +++ [Blank; Blank])
     [Comment "# Coverage builds don't need runners.";
      Rule {| target := "build-" ++ fuzzer ++ "-" ++ benchmark;
              prerequisites :=
                ["." ++ fuzzer ++ "-" ++ benchmark ++ "-builder"];
              recipe := [] |};
      Rule {| target := "pull-" ++ fuzzer ++ "-" ++ benchmark;
              prerequisites :=
                [".pull-" ++ fuzzer ++ "-" ++ benchmark ++ "-builder"];
              recipe := [] |};
      Blank]].

(** [OSS_FUZZER_BENCHMARK_TEMPLATE.format(...)] *)
Definition OSS_FUZZER_BENCHMARK_TEMPLATE
           (fuzzer fuzzer_variant_name fuzzer_variant_env benchmark
              base_tag : string) : list item :=
  [Plain Blank;
   Plain (Rule {|
     target := "." ++ fuzzer ++ "-" ++ benchmark
                 ++ "-oss-fuzz-builder-intermediate";
     prerequisites := [];
     recipe :=
       [cont (TAB ++ "docker build");
        cont ("    --tag " ++ base_tag ++ "/builders/" ++ fuzzer ++ "/"
                ++ benchmark ++ "-intermediate");
        cont ("    --file=fuzzers/" ++ fuzzer ++ "/builder.Dockerfile");
        cont ("    --build-arg parent_image=gcr.io/fuzzbench/oss-fuzz/$("
                ++ benchmark ++ "-project-name)@sha256:$(" ++ benchmark
                ++ "-oss-fuzz-builder-hash)");
        cont ("    $(call cache_from," ++ base_tag ++ "/builders/" ++ fuzzer
                ++ "/" ++ benchmark ++ "-intermediate)");
        "    fuzzers/" ++ fuzzer] |});
   Plain Blank;
   Plain (Rule {|
     target := ".pull-" ++ fuzzer ++ "-" ++ benchmark
                 ++ "-oss-fuzz-builder-intermediate";
     prerequisites := [];
     recipe := [TAB ++ "docker pull " ++ base_tag ++ "/builders/" ++ fuzzer
                  ++ "/" ++ benchmark ++ "-intermediate"] |});
   Plain Blank;
   Plain (Rule {|
     target := "." ++ fuzzer ++ "-" ++ benchmark ++ "-oss-fuzz-builder";
     prerequisites :=
       ["." ++ fuzzer ++ "-" ++ benchmark
          ++ "-oss-fuzz-builder-intermediate"];
     recipe :=
       [cont (TAB ++ "docker build");
        cont ("    --tag " ++ base_tag ++ "/builders/" ++ fuzzer ++ "/"
                ++ benchmark);
        cont "    --file=docker/oss-fuzz-builder/Dockerfile";
        cont ("    --build-arg parent_image=" ++ base_tag ++ "/builders/"
                ++ fuzzer ++ "/" ++ benchmark ++ "-intermediate");
        cont ("    --build-arg fuzzer=" ++ fuzzer);
        cont ("    --build-arg benchmark=" ++ benchmark);
        cont ("    $(call cache_from," ++ base_tag ++ "/builders/" ++ fuzzer
                ++ "/" ++ benchmark ++ ")");
        "    ."] |});
   Plain Blank;
   Plain (Rule {|
     target := ".pull-" ++ fuzzer ++ "-" ++ benchmark
                 ++ "-oss-fuzz-builder";
     prerequisites :=
       [".pull-" ++ fuzzer ++ "-" ++ benchmark
          ++ "-oss-fuzz-builder-intermediate"];
     recipe := [TAB ++ "docker pull " ++ base_tag ++ "/builders/" ++ fuzzer
                  ++ "/" ++ benchmark] |});
   Plain Blank;
   Ifeq fuzzer
     ([Blank;
       Rule {|
         target := "." ++ fuzzer ++ "-" ++ benchmark
                     ++ "-oss-fuzz-intermediate-runner";
         prerequisites := ["base-runner"];
         recipe :=
           [cont (TAB ++ "docker build");
            cont ("    --tag " ++ base_tag ++ "/runners/" ++ fuzzer ++ "/"
                    ++ benchmark ++ "-intermediate");
            cont ("    --file fuzzers/" ++ fuzzer ++ "/runner.Dockerfile");
            cont ("    $(call cache_from," ++ base_tag ++ "/runners/"
                    ++ fuzzer ++ "/" ++ benchmark ++ "-intermediate)");
            "    fuzzers/" ++ fuzzer] |};
       Blank;
       Rule {|
         target := ".pull-" ++ fuzzer ++ "-" ++ benchmark
                     ++ "-oss-fuzz-intermediate-runner";
         prerequisites := ["pull-base-runner"];
         recipe := [TAB ++ "docker pull " ++ base_tag ++ "/runners/"
                      ++ fuzzer ++ "/" ++ benchmark ++ "-intermediate"] |};
       Blank;
       Rule {|
         target := "." ++ fuzzer ++ "-" ++ benchmark ++ "-oss-fuzz-runner";
         prerequisites :=
           ["." ++ fuzzer ++ "-" ++ benchmark ++ "-oss-fuzz-builder";
            "." ++ fuzzer ++ "-" ++ benchmark
              ++ "-oss-fuzz-intermediate-runner"];
         recipe :=
           [cont (TAB ++ "docker build");
            cont ("    --tag " ++ base_tag ++ "/runners/" ++ fuzzer ++ "/"
                    ++ benchmark);
            cont ("    --build-arg fuzzer=" ++ fuzzer);
            cont ("    --build-arg benchmark=" ++ benchmark);
            cont ("    $(call cache_from," ++ base_tag ++ "/runners/"
                    ++ fuzzer ++ "/" ++ benchmark ++ ")");
            cont "    --file docker/oss-fuzz-runner/Dockerfile";
            "    ."] |};
       Blank;
       Rule {|
         target := ".pull-" ++ fuzzer ++ "-" ++ benchmark
                     ++ "-oss-fuzz-runner";
         prerequisites :=
           [".pull-" ++ fuzzer ++ "-" ++ benchmark ++ "-oss-fuzz-builder";
            ".pull-" ++ fuzzer ++ "-" ++ benchmark
              ++ "-oss-fuzz-intermediate-runner"];
         recipe := [TAB ++ "docker pull " ++ base_tag ++ "/runners/"
                      ++ fuzzer ++ "/" ++ benchmark] |};
       Blank]
      +++ OSS_FUZZER_BENCHMARK_RUN_TARGETS_TEMPLATE fuzzer
            fuzzer_variant_name fuzzer_variant_env benchmark base_tag
      +++ [Blank; Blank])
     [Blank;
      Rule {| target := "build-" ++ fuzzer ++ "-" ++ benchmark;
              prerequisites :=
                ["." ++ fuzzer ++ "-" ++ benchmark ++ "-oss-fuzz-builder"];
              recipe := [] |};
      Rule {| target := "pull-" ++ fuzzer ++ "-" ++ benchmark;
              prerequisites :=
                [".pull-" ++ fuzzer ++ "-" ++ benchmark
                   ++ "-oss-fuzz-builder"];
              recipe := [] |};
      Blank]].

(** *** Variants *)

(** A scalar of [variants.yaml], as the value of an environment override
    (floating-point values are left out). *)
Inductive scalar : Type :=
| YStr (s : string)
| YInt (z : Z)
| YBool (b : bool)
| YNull.

(** [str(v)] *)
Definition str (v : scalar) : string :=
  match v with
  | YStr s => s
  | YInt z => NilZero.string_of_int (Z.to_int z)
  | YBool true => "True"
  | YBool false => "False"
  | YNull => "None"
  end.

(** The characters [shlex.quote] leaves alone: [[a-zA-Z0-9_@%+=:,./-]]. *)
Definition is_safe (c : ascii) : bool :=
  let n := nat_of_ascii c in
  (((48 <=? n) && (n <=? 57)) || ((65 <=? n) && (n <=? 90))
   || ((97 <=? n) && (n <=? 122))
   || existsb (Nat.eqb n) [95; 64; 37; 43; 61; 58; 44; 46; 47; 45])%nat%bool.

Fixpoint all_safe (s : string) : bool :=
  match s with
  | EmptyString => true
  | String c rest => is_safe c && all_safe rest
  end.

(** [s.replace("'", "'\"'\"'")] *)
Fixpoint escape_quotes (s : string) : string :=
  match s with
  | EmptyString => EmptyString
  | String c rest =>
      if Ascii.eqb c (ascii_of_nat 39)
      then SQUOTE ++ DQUOTE ++ SQUOTE ++ DQUOTE ++ SQUOTE ++ escape_quotes rest
      else String c (escape_quotes rest)
  end.

(** [shlex.quote(s)] *)
Definition quote (s : string) : string :=
  if String.eqb s "" then SQUOTE ++ SQUOTE
  else if all_safe s then s
  else SQUOTE ++ escape_quotes s ++ SQUOTE.

(** One element of [config['variants']]: its ['name'] and its ['env'], a
    dict in insertion order. *)
Record variant : Type := {
  name : string;
  env : list (string * scalar)
}.

(** [' '.join(['-e {k}={v}'.format(k=k, v=shlex.quote(str(v)))
               for k, v in fuzzer_variant['env'].items()])] *)
Definition variant_env (fuzzer_variant : variant) : string :=
  join " " (map (fun kv => "-e " ++ fst kv ++ "=" ++ quote (str (snd kv)))
                (env fuzzer_variant)).

(** *** The generator *)

(** [print(text)] of a formatted template: the text ends a line, and
    [print] adds an empty one. *)
Definition print (text : list item) : list item := text +++ [Plain Blank].

(** [generate_fuzzer(fuzzer, benchmarks, oss_fuzz_benchmarks,
    fuzzer_variant=None)]: the statements it prints, in order. *)
Definition generate_fuzzer (fuzzer : string)
           (benchmarks oss_fuzz_benchmarks : list string)
           (fuzzer_variant : option variant) : list item :=
  let fuzzer_variant_name :=
    match fuzzer_variant with
    | Some v => name v
    | None => fuzzer
    end in
  match fuzzer_variant with
  | Some v =>
      let fuzzer_variant_env := variant_env v in
      flat_map (fun benchmark =>
                  print (map Plain
                           (FUZZER_BENCHMARK_RUN_TARGETS_TEMPLATE fuzzer
                              fuzzer_variant_name fuzzer_variant_env
                              benchmark BASE_TAG)))
               benchmarks
      +++
      flat_map (fun benchmark =>
                  print (map Plain
                           (OSS_FUZZER_BENCHMARK_RUN_TARGETS_TEMPLATE fuzzer
                              fuzzer_variant_name fuzzer_variant_env
                              benchmark BASE_TAG)))
               oss_fuzz_benchmarks
  | None =>
      print (FUZZER_TEMPLATE fuzzer BASE_TAG)
      +++
      flat_map (fun benchmark =>
                  print (FUZZER_BENCHMARK_TEMPLATE fuzzer
                           fuzzer_variant_name "" benchmark BASE_TAG))
               benchmarks
      +++
      flat_map (fun benchmark =>
                  print (OSS_FUZZER_BENCHMARK_TEMPLATE fuzzer
                           fuzzer_variant_name "" benchmark BASE_TAG))
               oss_fuzz_benchmarks
  end
  +++
  let all_benchmarks := benchmarks +++ oss_fuzz_benchmarks in
  [Plain (RuleAll {|
     target := "build-" ++ fuzzer_variant_name ++ "-all";
     prerequisites :=
       map (fun benchmark =>
              "build-" ++ fuzzer_variant_name ++ "-" ++ benchmark)
           all_benchmarks;
     recipe := [] |});
   Plain (RuleAll {|
     target := "pull-" ++ fuzzer_variant_name ++ "-all";
     prerequisites :=
       map (fun benchmark =>
              "pull-" ++ fuzzer_variant_name ++ "-" ++ benchmark)
           all_benchmarks;
     recipe := [] |})].

(** An entry of [os.listdir(BENCHMARKS_DIR)]: its name, whether it is a
    directory, and which marker files it holds. *)
Record benchmark_entry : Type := {
  benchmark_name : string;
  benchmark_isdir : bool;
  has_build_sh : bool;
  has_oss_fuzz_yaml : bool
}.

(** An entry of [os.listdir(FUZZERS_DIR)]: its name, whether it is a
    directory, and the ['variants'] of its [variants.yaml], if it has the
    file.  The list holds the variants that pass the assertions of [main]
    (each is a dict with a ['name']) and have an ['env']. *)
Record fuzzer_entry : Type := {
  fuzzer_name : string;
  fuzzer_isdir : bool;
  variants : option (list variant)
}.

(** The first loop of [main]: the two lists of benchmarks. *)
Fixpoint scan_benchmarks (listing : list benchmark_entry)
  : list string * list string :=
  match listing with
  | [] => ([], [])
  | e :: rest =>
      let (benchmarks, oss_fuzz_benchmarks) := scan_benchmarks rest in
      if negb (benchmark_isdir e) then (benchmarks, oss_fuzz_benchmarks)
      else
        ((if has_build_sh e then [benchmark_name e] else []) +++ benchmarks,
         (if has_oss_fuzz_yaml e then [benchmark_name e] else [])
         +++ oss_fuzz_benchmarks)
  end.

(** The second loop of [main]: what it prints for one entry of the fuzzers
    directory, and what it appends to [fuzzers_and_variants]. *)
Definition generate_entry (benchmarks oss_fuzz_benchmarks : list string)
           (e : fuzzer_entry) : list item * list string :=
  if negb (fuzzer_isdir e) then ([], [])
  else
    let fuzzer := fuzzer_name e in
    let own := generate_fuzzer fuzzer benchmarks oss_fuzz_benchmarks None in
    match variants e with
    | None => (own, [fuzzer])
    | Some vs =>
        (own +++
         flat_map (fun fuzzer_variant =>
                     generate_fuzzer fuzzer benchmarks oss_fuzz_benchmarks
                       (Some fuzzer_variant)) vs,
         fuzzer :: map name vs)
    end.

(** [main()]: the statements it prints, from the two directory listings. *)
Definition main (benchmarks_listing : list benchmark_entry)
           (fuzzers_listing : list fuzzer_entry) : list item :=
  let (benchmarks, oss_fuzz_benchmarks) :=
    scan_benchmarks benchmarks_listing in
  let generated :=
    map (generate_entry benchmarks oss_fuzz_benchmarks) fuzzers_listing in
  let fuzzers_and_variants := flat_map snd generated in
  print BOILERPLATE
  +++ flat_map fst generated
  +++ [Plain (RuleAll {|
         target := "build-all";
         prerequisites :=
           map (fun name => "build-" ++ name ++ "-all") fuzzers_and_variants;
         recipe := [] |});
       Plain (RuleAll {|
         target := "pull-all";
         prerequisites :=
           map (fun name => "pull-" ++ name ++ "-all") fuzzers_and_variants;
         recipe := [] |})].

(** *** The text *)

Definition render_rule (r : rule) : string :=
  target r ++ ":"
  ++ String.concat "" (map (fun p => " " ++ p) (prerequisites r)) ++ LF
  ++ String.concat "" (map (fun l => l ++ LF) (recipe r)).

Definition render_line (l : line) : string :=
  match l with
  | Blank => LF
  | Comment text => text ++ LF
  | Assign text => text ++ LF
  | Rule r => render_rule r
  | RuleAll r => target r ++ ": " ++ join " " (prerequisites r) ++ LF
  end.

Definition render_lines (ls : list line) : string :=
  String.concat "" (map render_line ls).

Definition render_item (i : item) : string :=
  match i with
  | Plain l => render_line l
  | Ifeq fuzzer then_branch else_branch =>
      "ifeq (,$(filter " ++ fuzzer ++ ",coverage coverage_source_based))"
      ++ LF ++ render_lines then_branch
      ++ "else" ++ LF ++ render_lines else_branch
      ++ "endif" ++ LF
  end.

(** The bytes of a sequence of printed statements. *)
Definition render (items : list item) : string :=
  String.concat "" (map render_item items).

(** *** What make reads *)

(** The words of [coverage coverage_source_based]: the conditional of the
    templates holds when [$(filter fuzzer,...)] is empty, that is, for a
    fuzzer name without blank or [%], when the fuzzer is none of them. *)
Definition coverage_fuzzers : list string :=
  ["coverage"; "coverage_source_based"].

Definition is_coverage (fuzzer : string) : bool :=
  existsb (String.eqb fuzzer) coverage_fuzzers.

Definition rules_of_line (l : line) : list rule :=
  match l with
  | Rule r => [r]
  | RuleAll r => [r]
  | _ => []
  end.

(** The rules make keeps from a statement: those of the branch the
    conditional selects. *)
Definition rules_of_item (i : item) : list rule :=
  match i with
  | Plain l => rules_of_line l
  | Ifeq fuzzer then_branch else_branch =>
      flat_map rules_of_line
               (if is_coverage fuzzer then else_branch else then_branch)
  end.

(** The sequence of rules of a printed text, in the order of the text. *)
Definition rules (items : list item) : list rule :=
  flat_map rules_of_item items.

Definition targets (items : list item) : list string :=
  map target (rules items).

(** The targets the enclosing Makefile provides. *)
Definition base_targets : list string :=
  ["base-builder"; "pull-base-builder"; "base-runner"; "pull-base-runner"].

End GenerateMakefile.

(** *** The generator as a program

    [generate_fuzzer] and [main] once more, as the script runs them: every
    [print] appends to the standard output, every [os.listdir],
    [os.path.isdir], [os.path.exists] and [yaml.load] asks the file system,
    and the lists the loops of [main] append to are threaded from one
    iteration to the next.  [GenerateMakefile.main] above is the sequence of
    statements this program prints, as a function of what the file system
    answered. *)

Module Script.
Import Py GenerateMakefile.

(** What the file system answers.  [load_variants path] is
    [config['variants']] of the [variants.yaml] at [path], for a file whose
    variants pass the assertions of [main] and have an ['env']. *)
Record files : Type := {
  listdir : string -> list string;
  isdir : string -> bool;
  exists_path : string -> bool;
  load_variants : string -> list variant
}.

(** The state a run can see: the file system, and the bytes written to the
    standard output so far. *)
Record world : Type := {
  fs : files;
  stdout : string
}.

Definition IO (A : Type) : Type := world -> A * world.

Definition ret {A} (a : A) : IO A := fun w => (a, w).

Definition bind {A B} (m : IO A) (k : A -> IO B) : IO B :=
  fun w => let (a, w') := m w in k a w'.

(** A question to the file system. *)
Definition ask {A} (question : files -> A) : IO A :=
  fun w => (question (fs w), w).

(** [print(text)] *)
Definition print (text : string) : IO unit :=
  fun w => (tt, {| fs := fs w; stdout := stdout w ++ text ++ LF |}).

Declare Scope io_scope.
Delimit Scope io_scope with io.
Notation "x <- m ;; k" := (bind m (fun x => k))
  (at level 61, m at next level, right associativity) : io_scope.
Notation "' pat <- m ;; k" :=
  (bind m (fun x => match x with pat => k end))
  (at level 61, pat pattern, m at next level, right associativity)
  : io_scope.
Notation "m ;;; k" := (bind m (fun _ => k))
  (at level 61, right associativity) : io_scope.
Local Open Scope io_scope.

(** [for x in l: body], the variables the body assigns being [s]. *)
Fixpoint for_each {A S : Type} (l : list A) (body : A -> S -> IO S) (s : S)
  : IO S :=
  match l with
  | [] => ret s
  | x :: rest => s' <- body x s ;; for_each rest body s'
  end.

(** [generate_fuzzer(fuzzer, benchmarks, oss_fuzz_benchmarks,
    fuzzer_variant=None)] *)
Definition generate_fuzzer (fuzzer : string)
           (benchmarks oss_fuzz_benchmarks : list string)
           (fuzzer_variant : option variant) : IO unit :=
  fuzzer_variant_name <-
    match fuzzer_variant with
    | Some v =>
        let fuzzer_variant_name := name v in
        let fuzzer_variant_env := variant_env v in
        for_each benchmarks
          (fun benchmark _ =>
             print (render (map Plain
                              (FUZZER_BENCHMARK_RUN_TARGETS_TEMPLATE fuzzer
                                 fuzzer_variant_name fuzzer_variant_env
                                 benchmark BASE_TAG)))) tt ;;;
        for_each oss_fuzz_benchmarks
          (fun benchmark _ =>
             print (render (map Plain
                              (OSS_FUZZER_BENCHMARK_RUN_TARGETS_TEMPLATE
                                 fuzzer fuzzer_variant_name
                                 fuzzer_variant_env benchmark BASE_TAG)))) tt ;;;
        ret fuzzer_variant_name
    | None =>
        let fuzzer_variant_name := fuzzer in
        print (render (FUZZER_TEMPLATE fuzzer BASE_TAG)) ;;;
        for_each benchmarks
          (fun benchmark _ =>
             print (render (FUZZER_BENCHMARK_TEMPLATE fuzzer
                              fuzzer_variant_name EmptyString benchmark
                              BASE_TAG))) tt ;;;
        for_each oss_fuzz_benchmarks
          (fun benchmark _ =>
             print (render (OSS_FUZZER_BENCHMARK_TEMPLATE fuzzer
                              fuzzer_variant_name EmptyString benchmark
                              BASE_TAG))) tt ;;;
        ret fuzzer_variant_name
    end ;;
  let all_benchmarks := (benchmarks ++ oss_fuzz_benchmarks)%list in
  let all_build_targets :=
    join " " (map (fun benchmark =>
                     "build-" ++ fuzzer_variant_name ++ "-" ++ benchmark)
                  all_benchmarks) in
  let all_pull_targets :=
    join " " (map (fun benchmark =>
                     "pull-" ++ fuzzer_variant_name ++ "-" ++ benchmark)
                  all_benchmarks) in
  print ("build-" ++ fuzzer_variant_name ++ "-all: " ++ all_build_targets) ;;;
  print ("pull-" ++ fuzzer_variant_name ++ "-all: " ++ all_pull_targets).

Section WithFile.

(** [os.path.dirname(__file__)] *)
Variable dirname : string.

(** [os.path.join(os.path.dirname(__file__), os.pardir, 'benchmarks')] *)
Definition BENCHMARKS_DIR : string :=
  path_join (path_join dirname "..") "benchmarks".

Definition FUZZERS_DIR : string :=
  path_join (path_join dirname "..") "fuzzers".

(** The body of the first loop of [main]. *)
Definition scan_benchmark (benchmark : string)
           (lists : list string * list string)
  : IO (list string * list string) :=
  let (benchmarks, oss_fuzz_benchmarks) := lists in
  let benchmark_path := path_join BENCHMARKS_DIR benchmark in
  is_dir <- ask (fun f => isdir f benchmark_path) ;;
  if negb is_dir then ret (benchmarks, oss_fuzz_benchmarks)
  else
    has_build_sh <-
      ask (fun f => exists_path f (path_join benchmark_path "build.sh")) ;;
    let benchmarks :=
      if has_build_sh then (benchmarks ++ [benchmark])%list
      else benchmarks in
    has_oss_fuzz_yaml <-
      ask (fun f => exists_path f (path_join benchmark_path "oss-fuzz.yaml")) ;;
    let oss_fuzz_benchmarks :=
      if has_oss_fuzz_yaml then (oss_fuzz_benchmarks ++ [benchmark])%list
      else oss_fuzz_benchmarks in
    ret (benchmarks, oss_fuzz_benchmarks).

(** The body of the second loop of [main]. *)
Definition generate_entry (benchmarks oss_fuzz_benchmarks : list string)
           (fuzzer : string) (fuzzers_and_variants : list string)
  : IO (list string) :=
  let fuzzer_dir := path_join FUZZERS_DIR fuzzer in
  is_dir <- ask (fun f => isdir f fuzzer_dir) ;;
  if negb is_dir then ret fuzzers_and_variants
  else
    generate_fuzzer fuzzer benchmarks oss_fuzz_benchmarks None ;;;
    let fuzzers_and_variants := (fuzzers_and_variants ++ [fuzzer])%list in
    let variants_path := path_join fuzzer_dir "variants.yaml" in
    has_variants <- ask (fun f => exists_path f variants_path) ;;
    if negb has_variants then ret fuzzers_and_variants
    else
      config <- ask (fun f => load_variants f variants_path) ;;
      for_each config
        (fun fuzzer_variant fuzzers_and_variants =>
           let fuzzer_variant_name := name fuzzer_variant in
           generate_fuzzer fuzzer benchmarks oss_fuzz_benchmarks
             (Some fuzzer_variant) ;;;
           ret (fuzzers_and_variants ++ [fuzzer_variant_name])%list)
        fuzzers_and_variants.

(** [main()] *)
Definition main : IO unit :=
  print (render BOILERPLATE) ;;;
  listing <- ask (fun f => listdir f BENCHMARKS_DIR) ;;
  ' (benchmarks, oss_fuzz_benchmarks) <-
    for_each listing scan_benchmark ([], []) ;;
  listing <- ask (fun f => listdir f FUZZERS_DIR) ;;
  fuzzers_and_variants <-
    for_each listing (generate_entry benchmarks oss_fuzz_benchmarks) [] ;;
  let all_build_targets :=
    join " " (map (fun name => "build-" ++ name ++ "-all")
                  fuzzers_and_variants) in
  let all_pull_targets :=
    join " " (map (fun name => "pull-" ++ name ++ "-all")
                  fuzzers_and_variants) in
  print ("build-all: " ++ all_build_targets) ;;;
  print ("pull-all: " ++ all_pull_targets).

(** What [main] learns about one entry of the benchmarks directory, and
    about one entry of the fuzzers directory. *)
Definition benchmark_entry_of (tree : files) (benchmark : string)
  : benchmark_entry :=
  let benchmark_path := path_join BENCHMARKS_DIR benchmark in
  {| benchmark_name := benchmark;
     benchmark_isdir := isdir tree benchmark_path;
     has_build_sh := exists_path tree (path_join benchmark_path "build.sh");
     has_oss_fuzz_yaml :=
       exists_path tree (path_join benchmark_path "oss-fuzz.yaml") |}.

Definition fuzzer_entry_of (tree : files) (fuzzer : string) : fuzzer_entry :=
  let fuzzer_dir := path_join FUZZERS_DIR fuzzer in
  let variants_path := path_join fuzzer_dir "variants.yaml" in
  {| fuzzer_name := fuzzer;
     fuzzer_isdir := isdir tree fuzzer_dir;
     variants :=
       if exists_path tree variants_path
       then Some (load_variants tree variants_path)
       else None |}.

(** The two directory listings, as [main] finds them. *)
Definition benchmark_entries (tree : files) : list benchmark_entry :=
  map (benchmark_entry_of tree) (listdir tree BENCHMARKS_DIR).

Definition fuzzer_entries (tree : files) : list fuzzer_entry :=
  map (fuzzer_entry_of tree) (listdir tree FUZZERS_DIR).

End WithFile.

End Script.

(** ** Predicates of the statements *)

Module Spec.
Import Py Integration GenerateMakefile.
Local Open Scope list_scope.

(** The parent-image marker of the rewrite: the line, stripped, starts with
    [FROM]. *)
Definition is_from_line (line : string) : bool :=
  startswith (strip line) "FROM".

(** The reading of the specification: only the first line with the marker
    is rewritten, so that every line that is not the first one with the
    marker is found unchanged in the file written back. *)
Definition rewrites_only_first_match (digest text : string) : Prop :=
  forall i line,
    nth_error (readlines text) i = Some line ->
    (is_from_line line = false
     \/ exists j earlier, j < i /\ nth_error (readlines text) j = Some earlier
                          /\ is_from_line earlier = true) ->
    nth_error (readlines (replace_text digest text)) i = Some line.

Fixpoint no_lf (s : string) : bool :=
  match s with
  | EmptyString => true
  | String c rest => negb (Ascii.eqb c (ascii_of_nat 10)) && no_lf rest
  end.

(** A line with its terminator, and a last line without one. *)
Definition terminated (l : string) : Prop :=
  exists body, no_lf body = true /\ l = (body ++ LF)%string.

Definition unterminated (l : string) : Prop :=
  l <> EmptyString /\ no_lf l = true.

Fixpoint well_formed_lines (ls : list string) : Prop :=
  match ls with
  | [] => True
  | l :: rest =>
      match rest with
      | [] => terminated l \/ unterminated l
      | _ :: _ => terminated l /\ well_formed_lines rest
      end
  end.

(** The kinds of convenience targets, by the first word of the name. *)
Definition is_build_target (t : string) : bool := startswith t "build-".
Definition is_pull_target (t : string) : bool := startswith t "pull-".
Definition is_run_target (t : string) : bool :=
  startswith t "run-" || startswith t "test-run-" || startswith t "debug-".

(** The image targets ([.fuzzer-builder], [.fuzzer-benchmark-runner], ...)
    are the hidden ones: their names start with a dot. *)
Definition is_image_target (t : string) : bool := startswith t ".".

(** The name under which [generate_fuzzer] files its convenience targets. *)
Definition namespace (fuzzer : string) (fuzzer_variant : option variant)
  : string :=
  match fuzzer_variant with
  | Some v => name v
  | None => fuzzer
  end.

(** What [generate_fuzzer] prints before the two umbrella rules. *)
Definition per_benchmark (fuzzer : string)
           (benchmarks oss_fuzz_benchmarks : list string)
           (fuzzer_variant : option variant) : list item :=
  match fuzzer_variant with
  | Some v =>
      flat_map (fun benchmark =>
                  print (map Plain
                           (FUZZER_BENCHMARK_RUN_TARGETS_TEMPLATE fuzzer
                              (name v) (variant_env v) benchmark BASE_TAG)))
               benchmarks
      ++
      flat_map (fun benchmark =>
                  print (map Plain
                           (OSS_FUZZER_BENCHMARK_RUN_TARGETS_TEMPLATE fuzzer
                              (name v) (variant_env v) benchmark BASE_TAG)))
               oss_fuzz_benchmarks
  | None =>
      print (FUZZER_TEMPLATE fuzzer BASE_TAG)
      ++
      flat_map (fun benchmark =>
                  print (FUZZER_BENCHMARK_TEMPLATE fuzzer fuzzer EmptyString
                           benchmark BASE_TAG))
               benchmarks
      ++
      flat_map (fun benchmark =>
                  print (OSS_FUZZER_BENCHMARK_TEMPLATE fuzzer fuzzer
                           EmptyString benchmark BASE_TAG))
               oss_fuzz_benchmarks
  end.

Definition build_all (n : string) (all_benchmarks : list string) : rule :=
  {| target := ("build-" ++ n ++ "-all")%string;
     prerequisites :=
       map (fun benchmark => ("build-" ++ n ++ "-" ++ benchmark)%string)
           all_benchmarks;
     recipe := [] |}.

Definition pull_all (n : string) (all_benchmarks : list string) : rule :=
  {| target := ("pull-" ++ n ++ "-all")%string;
     prerequisites :=
       map (fun benchmark => ("pull-" ++ n ++ "-" ++ benchmark)%string)
           all_benchmarks;
     recipe := [] |}.

(** No forward reference: every prerequisite of every rule is the target
    of a rule that stands strictly earlier in the sequence, or one of the
    targets in [external]. *)
Definition prerequisites_known (external : list string) (rs : list rule)
  : Prop :=
  forall pre r post,
    rs = pre ++ r :: post ->
    forall p, In p (prerequisites r) ->
              In p external \/ In p (map target pre).

(** The same, read along the sequence: [known] holds the targets seen so
    far. *)
Fixpoint defined_before (known : list string) (rs : list rule) : Prop :=
  match rs with
  | [] => True
  | r :: rest =>
      (forall p, In p (prerequisites r) -> In p known)
      /\ defined_before (target r :: known) rest
  end.

(** A coverage-only fuzzer of the listing declares no variant. *)
Definition coverage_without_variants (fuzzers_listing : list fuzzer_entry)
  : Prop :=
  forall e v vs,
    In e fuzzers_listing -> fuzzer_isdir e = true ->
    is_coverage (fuzzer_name e) = true ->
    variants e = Some vs -> ~ In v vs.

(** *** Target names, taken apart *)

(** The generator builds every target name from fixed words and from the
    names of a fuzzer (or variant) and of a benchmark, joined by hyphens.
    A [key] is a target before the join. *)
Inductive image_kind : Type :=
| Builder
| IntermediateRunner
| Runner
| OssFuzzBuilderIntermediate
| OssFuzzBuilder
| OssFuzzIntermediateRunner
| OssFuzzRunner.

Inductive convenience : Type := Build | Pull | Run | TestRun | Debug.

Inductive key : Type :=
| KFuzzer (pull : bool) (fuzzer : string)
| KImage (pull : bool) (fuzzer benchmark : string) (kind : image_kind)
| KConvenience (c : convenience) (n benchmark : string)
| KAll (pull : bool) (n : string)
| KTop (pull : bool).

Definition image_words (kind : image_kind) : list string :=
  match kind with
  | Builder => ["builder"]
  | IntermediateRunner => ["intermediate"; "runner"]
  | Runner => ["runner"]
  | OssFuzzBuilderIntermediate => ["oss"; "fuzz"; "builder"; "intermediate"]
  | OssFuzzBuilder => ["oss"; "fuzz"; "builder"]
  | OssFuzzIntermediateRunner => ["oss"; "fuzz"; "intermediate"; "runner"]
  | OssFuzzRunner => ["oss"; "fuzz"; "runner"]
  end%string.

Definition convenience_words (c : convenience) : list string :=
  match c with
  | Build => ["build"]
  | Pull => ["pull"]
  | Run => ["run"]
  | TestRun => ["test"; "run"]
  | Debug => ["debug"]
  end%string.

Definition hidden (pull : bool) (fuzzer : string) : list string :=
  if pull then [".pull"%string; fuzzer] else [("." ++ fuzzer)%string].

Definition all_word (pull : bool) : string :=
  if pull then "pull"%string else "build"%string.

(** The words of a target name, between the hyphens. *)
Definition words (k : key) : list string :=
  match k with
  | KFuzzer pull fuzzer => hidden pull fuzzer ++ ["builder"%string]
  | KImage pull fuzzer benchmark kind =>
      hidden pull fuzzer ++ [benchmark] ++ image_words kind
  | KConvenience c n benchmark => convenience_words c ++ [n; benchmark]
  | KAll pull n => [all_word pull; n; "all"%string]
  | KTop pull => [all_word pull; "all"%string]
  end.

Definition name_of (k : key) : string := join "-" (words k).

Fixpoint hyphen_free (s : string) : bool :=
  match s with
  | EmptyString => true
  | String c rest => negb (Ascii.eqb c "-"%char) && hyphen_free rest
  end.

(** [s.split('-')] *)
Fixpoint split_hyphen (s : string) : list string :=
  match s with
  | EmptyString => [EmptyString]
  | String c rest =>
      if Ascii.eqb c "-"%char then EmptyString :: split_hyphen rest
      else match split_hyphen rest with
           | [] => [String c EmptyString]
           | word :: more => String c word :: more
           end
  end.

(** The names that keep the words of a target apart: no hyphen inside a
    name, no fuzzer directory called [pull] (its images would read as pull
    targets), no benchmark called [all] (its convenience targets would
    read as umbrella targets). *)
Definition well_named (k : key) : bool :=
  match k with
  | KFuzzer _ fuzzer => hyphen_free fuzzer && negb (String.eqb fuzzer "pull")
  | KImage _ fuzzer benchmark _ =>
      hyphen_free fuzzer && negb (String.eqb fuzzer "pull")
      && hyphen_free benchmark
  | KConvenience _ n benchmark =>
      hyphen_free n && hyphen_free benchmark
      && negb (String.eqb benchmark "all")
  | KAll _ n => hyphen_free n
  | KTop _ => true
  end.

(** The targets of each piece of the output, as keys. *)
Definition fuzzer_keys (fuzzer : string) : list key :=
  [KFuzzer false fuzzer; KFuzzer true fuzzer].

Definition convenience_keys (coverage : bool) (n benchmark : string)
  : list key :=
  if coverage
  then [KConvenience Build n benchmark; KConvenience Pull n benchmark]
  else [KConvenience Build n benchmark; KConvenience Pull n benchmark;
        KConvenience Run n benchmark; KConvenience TestRun n benchmark;
        KConvenience Debug n benchmark].

Definition image_pair (fuzzer benchmark : string) (kind : image_kind)
  : list key :=
  [KImage false fuzzer benchmark kind; KImage true fuzzer benchmark kind].

Definition benchmark_keys (fuzzer benchmark : string) : list key :=
  image_pair fuzzer benchmark Builder
  ++ (if is_coverage fuzzer then []
      else image_pair fuzzer benchmark IntermediateRunner
           ++ image_pair fuzzer benchmark Runner)
  ++ convenience_keys (is_coverage fuzzer) fuzzer benchmark.

Definition oss_benchmark_keys (fuzzer benchmark : string) : list key :=
  image_pair fuzzer benchmark OssFuzzBuilderIntermediate
  ++ image_pair fuzzer benchmark OssFuzzBuilder
  ++ (if is_coverage fuzzer then []
      else image_pair fuzzer benchmark OssFuzzIntermediateRunner
           ++ image_pair fuzzer benchmark OssFuzzRunner)
  ++ convenience_keys (is_coverage fuzzer) fuzzer benchmark.

Definition all_keys (n : string) : list key := [KAll false n; KAll true n].

Definition own_keys (benchmarks oss_fuzz_benchmarks : list string)
           (fuzzer : string) : list key :=
  fuzzer_keys fuzzer
  ++ flat_map (benchmark_keys fuzzer) benchmarks
  ++ flat_map (oss_benchmark_keys fuzzer) oss_fuzz_benchmarks
  ++ all_keys fuzzer.

Definition variant_keys (benchmarks oss_fuzz_benchmarks : list string)
           (v : variant) : list key :=
  flat_map (convenience_keys false (name v)) benchmarks
  ++ flat_map (convenience_keys false (name v)) oss_fuzz_benchmarks
  ++ all_keys (name v).

Definition entry_keys (benchmarks oss_fuzz_benchmarks : list string)
           (e : fuzzer_entry) : list key :=
  if negb (fuzzer_isdir e) then []
  else own_keys benchmarks oss_fuzz_benchmarks (fuzzer_name e)
       ++ match variants e with
          | None => []
          | Some vs =>
              flat_map (variant_keys benchmarks oss_fuzz_benchmarks) vs
          end.

Definition main_keys (benchmarks oss_fuzz_benchmarks : list string)
           (fuzzers_listing : list fuzzer_entry) : list key :=
  flat_map (entry_keys benchmarks oss_fuzz_benchmarks) fuzzers_listing
  ++ [KTop false; KTop true].

(** The name under which a key is filed, and its benchmark. *)
Definition owner (k : key) : string :=
  match k with
  | KFuzzer _ fuzzer => fuzzer
  | KImage _ fuzzer _ _ => fuzzer
  | KConvenience _ n _ => n
  | KAll _ n => n
  | KTop _ => EmptyString
  end.

Definition benchmark_of (k : key) : string :=
  match k with
  | KImage _ _ benchmark _ => benchmark
  | KConvenience _ _ benchmark => benchmark
  | _ => EmptyString
  end.

Definition per_benchmark_key (k : key) : bool :=
  match k with
  | KImage _ _ _ _ => true
  | KConvenience _ _ _ => true
  | _ => false
  end.

Definition hidden_key (k : key) : bool :=
  match k with
  | KFuzzer _ _ => true
  | KImage _ _ _ _ => true
  | _ => false
  end.

(** Where a piece of the output files a key: under the name [n], for the
    benchmark [b]. *)
Definition filed (n b : string) (k : key) : Prop :=
  owner k = n /\ benchmark_of k = b /\ per_benchmark_key k = true.

(** The names of the fuzzer directories of a listing. *)
Definition fuzzers (fuzzers_listing : list fuzzer_entry) : list string :=
  map fuzzer_name (filter fuzzer_isdir fuzzers_listing).

(** What an entry of the listing appends to [fuzzers_and_variants], and the
    list at the end of [main]. *)
Definition entry_names (e : fuzzer_entry) : list string :=
  if negb (fuzzer_isdir e) then []
  else fuzzer_name e :: match variants e with
                        | None => []
                        | Some vs => map name vs
                        end.

Definition fuzzers_and_variants (fuzzers_listing : list fuzzer_entry)
  : list string :=
  flat_map entry_names fuzzers_listing.





(** What a command of the generator does on the file system [tree]: it
    returns [a] and appends [text] to the standard output, whatever the
    standard output held, and leaves the file system as it was. *)
Definition prints {A} (tree : Script.files) (m : Script.IO A) (a : A)
           (text : string) : Prop :=
  forall out : string,
    m {| Script.fs := tree; Script.stdout := out |}
    = (a, {| Script.fs := tree; Script.stdout := (out ++ text)%string |}).

(** What one iteration of the first loop of [main] does to its two
    lists, from what it learns about the entry. *)
Definition scan_step (e : benchmark_entry) (lists : list string * list string)
  : list string * list string :=
  if negb (benchmark_isdir e) then lists
  else
    (fst lists ++ (if has_build_sh e then [benchmark_name e] else []),
     snd lists ++ (if has_oss_fuzz_yaml e then [benchmark_name e] else [])).

(** The fuzzers of a listing of the fuzzers directory, each with its
    variants: the entries that are directories, in the order of the
    listing. *)
Definition fuzzers_with_variants (fuzzers_listing : list fuzzer_entry)
  : list (string * option (list variant)) :=
  map (fun e => (fuzzer_name e, variants e))
      (filter fuzzer_isdir fuzzers_listing).

(** The scanned input of a run: the list of standard benchmarks, the list of
    externally-derived benchmarks and the list of fuzzers with their
    variants, each in the order of the scan. *)
Definition scanned_input (dirname : string) (tree : Script.files)
  : (list string * list string) * list (string * option (list variant)) :=
  (scan_benchmarks (Script.benchmark_entries dirname tree),
   fuzzers_with_variants (Script.fuzzer_entries dirname tree)).

End Spec.

(** ** Concrete inputs *)

Module Examples.
Import Py Integration GenerateMakefile.
Local Open Scope list_scope.

(** A world with no [gcloud], where every process prints nothing and every
    file holds [text]. *)
Definition dockerfile_env (text : string) : Integration.env :=
  {| ROOT_DIR := "/fuzzbench";
     BENCHMARKS_DIR := "/fuzzbench/benchmarks";
     run := fun _ _ => (EmptyString, EmptyString, 0%Z);
     find_executable := fun _ => None;
     copy_tree := fun _ _ => None;
     file_text := fun _ => Some text;
     fromisoformat := fun _ => None;
     isoformat := fun _ => EmptyString;
     json_loads := fun _ => None |}.

(** The world of scenario D: [git log] finds no commit before the date (it
    prints nothing), and [gcloud] is not installed. *)
Definition no_commit_env : Integration.env :=
  {| ROOT_DIR := "/fuzzbench";
     BENCHMARKS_DIR := "/fuzzbench/benchmarks";
     run := fun _ _ => (EmptyString, EmptyString, 0%Z);
     find_executable := fun _ => None;
     copy_tree := fun _ _ => None;
     file_text := fun _ => None;
     fromisoformat :=
       fun s => if String.eqb s "2021-05-01" then Some 1619827200%Z else None;
     isoformat := fun _ => "2021-05-01T00:00:00+00:00";
     json_loads := fun _ => None |}.

(** A world where [git log] finds a commit, and [gcloud] is not
    installed. *)
Definition no_gcloud_env : Integration.env :=
  {| ROOT_DIR := "/fuzzbench";
     BENCHMARKS_DIR := "/fuzzbench/benchmarks";
     run := fun command _ =>
              if existsb (String.eqb "log") command
              then (("4f3a9c1" ++ LF)%string, EmptyString, 0%Z)
              else (EmptyString, EmptyString, 0%Z);
     find_executable := fun _ => None;
     copy_tree := fun _ _ => None;
     file_text :=
       fun _ => Some ("FROM gcr.io/oss-fuzz-base/base-builder" ++ LF)%string;
     fromisoformat :=
       fun s => if String.eqb s "2021-05-01" then Some 1619827200%Z else None;
     isoformat := fun _ => "2021-05-01T00:00:00+00:00";
     json_loads := fun _ => None |}.


Definition start : state := {| cwd := "/fuzzbench"; trace := [] |}.

(** A benchmark directory with a [build.sh], one with an [oss-fuzz.yaml],
    and one with both. *)
Definition standard (benchmark : string) : benchmark_entry :=
  {| benchmark_name := benchmark; benchmark_isdir := true;
     has_build_sh := true; has_oss_fuzz_yaml := false |}.

Definition oss_fuzz (benchmark : string) : benchmark_entry :=
  {| benchmark_name := benchmark; benchmark_isdir := true;
     has_build_sh := false; has_oss_fuzz_yaml := true |}.

Definition both_kinds (benchmark : string) : benchmark_entry :=
  {| benchmark_name := benchmark; benchmark_isdir := true;
     has_build_sh := true; has_oss_fuzz_yaml := true |}.

(** A fuzzer directory without [variants.yaml], and one with. *)
Definition plain_fuzzer (fuzzer : string) : fuzzer_entry :=
  {| fuzzer_name := fuzzer; fuzzer_isdir := true; variants := None |}.

Definition fuzzer_with (fuzzer : string) (vs : list variant) : fuzzer_entry :=
  {| fuzzer_name := fuzzer; fuzzer_isdir := true; variants := Some vs |}.

(** A checkout seen from a script started as [docker/generate_makefile.py]:
    one standard benchmark, one externally-derived one, a fuzzer with a
    variant and a fuzzer without. *)
Definition checkout : Script.files :=
  {| Script.listdir :=
       fun path =>
         if String.eqb path "docker/../benchmarks"
         then ["zlib"; "curl_fuzzer"]
         else if String.eqb path "docker/../fuzzers"
              then ["afl"; "honggfuzz"]
              else [];
     Script.isdir := fun _ => true;
     Script.exists_path :=
       fun path =>
         existsb (String.eqb path)
           ["docker/../benchmarks/zlib/build.sh";
            "docker/../benchmarks/curl_fuzzer/oss-fuzz.yaml";
            "docker/../fuzzers/afl/variants.yaml"];
     Script.load_variants :=
       fun _ => [{| name := "afl_fast"; env := [("AFL_FAST", YInt 1)] |}] |}.

(** The same benchmarks and fuzzers in another place, seen from a script
    started by its absolute path, with files that are no directories in
    both listings and a directory without marker among the benchmarks. *)
Definition cluttered_checkout : Script.files :=
  {| Script.listdir :=
       fun path =>
         if String.eqb path "/work/docker/../benchmarks"
         then ["__init__.py"; "zlib"; "notes"; "curl_fuzzer"]
         else if String.eqb path "/work/docker/../fuzzers"
              then ["afl"; "README.md"; "honggfuzz"]
              else [];
     Script.isdir :=
       fun path =>
         negb (existsb (String.eqb path)
                 ["/work/docker/../benchmarks/__init__.py";
                  "/work/docker/../fuzzers/README.md"]);
     Script.exists_path :=
       fun path =>
         existsb (String.eqb path)
           ["/work/docker/../benchmarks/zlib/build.sh";
            "/work/docker/../benchmarks/curl_fuzzer/oss-fuzz.yaml";
            "/work/docker/../fuzzers/afl/variants.yaml"];
     Script.load_variants :=
       fun _ => [{| name := "afl_fast"; env := [("AFL_FAST", YInt 1)] |}] |}.

End Examples.

(** * Properties *)

Section DigestIndex.
Import Py BaseBuilderRepo.
Local Open Scope list_scope.

Lemma populate_from (entries : list (Z * string)) (repo : t) :
  fold_left (fun r e => add_digest r (fst e) (snd e)) entries repo
  = {| timestamps := timestamps repo ++ map fst entries;
       digests := digests repo ++ map snd entries |}.
Proof.
  revert repo. induction entries as [|e es IH]; intros repo; simpl.
  - rewrite !app_nil_r. now destruct repo.
  - rewrite IH. simpl. now rewrite <- !app_assoc.
Qed.

Lemma timestamps_populate entries :
  timestamps (populate entries) = map fst entries.
Proof. unfold populate. now rewrite populate_from. Qed.

Lemma digests_populate entries :
  digests (populate entries) = map snd entries.
Proof. unfold populate. now rewrite populate_from. Qed.

Lemma non_decreasing_nth (ts : list Z) :
  non_decreasing ts = true ->
  forall i j, i <= j -> j < List.length ts ->
              (nth i ts 0 <= nth j ts 0)%Z.
Proof.
  induction ts as [|x rest IH]; intros Hs i j Hij Hj; simpl in Hj; [lia|].
  assert (Hrest : non_decreasing rest = true).
  { simpl in Hs. destruct rest; [reflexivity|].
    now apply andb_true_iff in Hs. }
  assert (Hhead : forall k, k < List.length rest -> (x <= nth k rest 0)%Z).
  { intros k Hk. destruct rest as [|y r]; simpl in Hk; [lia|].
    simpl in Hs. apply andb_true_iff in Hs as [Hxy _].
    apply Z.leb_le in Hxy.
    specialize (IH Hrest 0 k (Nat.le_0_l _) Hk). simpl in IH. simpl. lia. }
  destruct i as [|i], j as [|j]; simpl; try lia.
  - apply Hhead. lia.
  - apply IH; auto; lia.
Qed.

(** The loop invariant of the binary search: everything left of [lo] is at
    most [x], everything from [hi] on is greater. *)
Lemma bisect_loop_spec (a : list Z) (x : Z) (lo hi : nat) :
  (forall i j, i <= j -> j < List.length a -> (nth i a 0 <= nth j a 0)%Z) ->
  lo <= hi -> hi <= List.length a ->
  (forall i, i < lo -> (nth i a 0 <= x)%Z) ->
  (forall i, hi <= i -> i < List.length a -> (x < nth i a 0)%Z) ->
  let r := bisect_loop a x lo hi in
  lo <= r /\ r <= hi /\
  (forall i, i < r -> (nth i a 0 <= x)%Z) /\
  (forall i, r <= i -> i < List.length a -> (x < nth i a 0)%Z).
Proof.
  intros Hsorted. funelim (bisect_loop a x lo hi); intros Hle Hhi Hlo Hup.
  - assert (lo = hi) by lia. subst. cbn zeta. repeat split; auto.
  - assert (Hd := Nat.div_mod_eq (lo + hi) 2).
    assert (Hm := Nat.mod_upper_bound (lo + hi) 2).
    match goal with H : (_ <? _)%Z = true |- _ => apply Z.ltb_lt in H; rename H into Hx end.
    match goal with IH : _ -> _ -> _ -> _ -> _ -> _ |- _ =>
      destruct (IH Hsorted) as (H1 & H2 & H3 & H4); try lia; auto end.
    { intros i Hi Hlen.
      specialize (Hsorted ((lo + hi) / 2) i Hi Hlen). lia. }
    cbn zeta. repeat split; auto; lia.
  - assert (Hd := Nat.div_mod_eq (lo + hi) 2).
    assert (Hm := Nat.mod_upper_bound (lo + hi) 2).
    match goal with H : (_ <? _)%Z = false |- _ => apply Z.ltb_ge in H; rename H into Hx end.
    match goal with IH : _ -> _ -> _ -> _ -> _ -> _ |- _ =>
      destruct (IH Hsorted) as (H1 & H2 & H3 & H4); try lia; auto end.
    { intros i Hi.
      assert (Hi' : i <= (lo + hi) / 2) by lia.
      assert (Hlen : (lo + hi) / 2 < List.length a) by lia.
      specialize (Hsorted i ((lo + hi) / 2) Hi' Hlen). lia. }
    cbn zeta. repeat split; auto; lia.
Qed.

Lemma bisect_right_spec (a : list Z) (x : Z) :
  non_decreasing a = true ->
  let r := bisect_right a x in
  r <= List.length a /\
  (forall i, i < r -> (nth i a 0 <= x)%Z) /\
  (forall i, r <= i -> i < List.length a -> (x < nth i a 0)%Z).
Proof.
  intros Hs. unfold bisect_right.
  destruct (bisect_loop_spec a x 0 (List.length a)) as (_ & H2 & H3 & H4);
    auto using non_decreasing_nth; try lia.
Qed.

End DigestIndex.

Section DigestIndexClaims.
Import Py BaseBuilderRepo.
Local Open Scope list_scope.
Local Open Scope Z_scope.

Lemma nth_error_fst (entries : list (Z * string)) i t d :
  nth_error entries i = Some (t, d) ->
  nth i (map fst entries) 0 = t /\ (i < List.length (map fst entries))%nat.
Proof.
  revert i. induction entries as [|e es IH]; intros [|i] H; simpl in *;
    try discriminate.
  - injection H as ->. split; [reflexivity | lia].
  - destruct (IH _ H). split; [assumption | lia].
Qed.

Lemma nth_error_entry (entries : list (Z * string)) i :
  (i < List.length (map fst entries))%nat ->
  exists d, nth_error entries i = Some (nth i (map fst entries) 0, d)
            /\ nth_error (map snd entries) i = Some d.
Proof.
  revert i. induction entries as [|[t d] es IH]; intros [|i] H; simpl in *;
    try lia.
  - now exists d.
  - apply IH. lia.
Qed.

Lemma find_digest_with_bisect_found (entries : list (Z * string)) (q : Z) :
  non_decreasing (map fst entries) = true ->
  (exists t d, In (t, d) entries /\ t <= q) ->
  exists i t d,
    find_digest_with_bisect (populate entries) q = Ok d
    /\ nth_error entries i = Some (t, d)
    /\ t <= q
    /\ forall j t' d', nth_error entries j = Some (t', d') -> t' <= q ->
                       (j <= i)%nat /\ t' <= t.
Proof.
  intros Hs (t0 & d0 & Hin & Hq).
  destruct (bisect_right_spec (map fst entries) q Hs) as (Hr & Hlo & Hup).
  set (r := bisect_right (map fst entries) q) in *.
  assert (Hbelow : forall j t' d',
             nth_error entries j = Some (t', d') -> t' <= q -> (j < r)%nat).
  { intros j t' d' Hj Ht'. destruct (nth_error_fst _ _ _ _ Hj) as [Hn Hl].
    destruct (Nat.lt_ge_cases j r) as [|Hge]; [assumption|].
    specialize (Hup j Hge Hl). lia. }
  apply In_nth_error in Hin as [k Hk].
  assert (Hpos : (0 < r)%nat) by (specialize (Hbelow _ _ _ Hk Hq); lia).
  destruct (nth_error_entry entries (r - 1)) as (d & Hd & Hd'); [lia|].
  exists (r - 1)%nat, (nth (r - 1) (map fst entries) 0), d.
  repeat split.
  - unfold find_digest_with_bisect.
    rewrite timestamps_populate, digests_populate. fold r.
    apply Nat.ltb_lt in Hpos. rewrite Hpos, Hd'. reflexivity.
  - assumption.
  - apply Hlo. lia.
  - specialize (Hbelow _ _ _ H H0). lia.
  - destruct (nth_error_fst _ _ _ _ H) as [<- Hl].
    apply non_decreasing_nth; auto; try lia.
    specialize (Hbelow _ _ _ H H0). lia.
Qed.

Lemma find_digest_with_bisect_fails_iff (entries : list (Z * string)) (q : Z) :
  non_decreasing (map fst entries) = true ->
  find_digest_with_bisect (populate entries) q
  = Raise (ValueError "Failed to find suitable base-builder.")
  <-> forall t d, In (t, d) entries -> q < t.
Proof.
  intros Hs. split.
  - intros Hfail t d Hin.
    destruct (Z.lt_ge_cases q t) as [|Hle]; [assumption|].
    destruct (find_digest_with_bisect_found entries q Hs) as (i & t' & d' & Hok & _).
    { exists t, d. split; [assumption | lia]. }
    rewrite Hok in Hfail. discriminate.
  - intros Hall.
    destruct (bisect_right_spec (map fst entries) q Hs) as (Hr & Hlo & Hup).
    unfold find_digest_with_bisect. rewrite timestamps_populate.
    destruct (Nat.ltb_spec 0 (bisect_right (map fst entries) q)) as [Hpos|];
      [|reflexivity].
    exfalso.
    destruct (nth_error_entry entries 0) as (d & Hd & _); [lia|].
    apply nth_error_In in Hd. specialize (Hall _ _ Hd).
    specialize (Hlo 0%nat Hpos). lia.
Qed.

(** The method with [import bisect] in place.  On an index fed in
    non-decreasing timestamp order it returns the digest of the entry with
    the greatest timestamp at most [q] (the last such entry of the feed),
    and it fails, with the [ValueError] that stands for "no suitable
    artifact", exactly when every timestamp exceeds [q]. *)
Lemma find_digest_with_bisect_latest_before
      (entries : list (Z * string)) (q : Z) :
  non_decreasing (map fst entries) = true ->
  ((exists t d, In (t, d) entries /\ t <= q) ->
   exists i t d,
     find_digest_with_bisect (populate entries) q = Ok d
     /\ nth_error entries i = Some (t, d)
     /\ t <= q
     /\ forall j t' d', nth_error entries j = Some (t', d') -> t' <= q ->
                        (j <= i)%nat /\ t' <= t)
  /\ (find_digest_with_bisect (populate entries) q
      = Raise (ValueError "Failed to find suitable base-builder.")
      <-> forall t d, In (t, d) entries -> q < t).
Proof.
  intros Hs. split.
  - apply find_digest_with_bisect_found; assumption.
  - apply find_digest_with_bisect_fails_iff; assumption.
Qed.

Lemma find_digest_with_bisect_scenario :
  find_digest_with_bisect (populate [(100, "a"); (200, "b")]) 150 = Ok "a"
  /\ find_digest_with_bisect (populate [(100, "a"); (200, "b")]) 50
     = Raise (ValueError "Failed to find suitable base-builder.")
  /\ find_digest_with_bisect (populate [(100, "a"); (200, "b")]) 200
     = Ok "b".
Proof. repeat split; reflexivity. Qed.

(** C1.  The file never imports [bisect], so the first statement of
    [find_digest] raises [NameError] whatever the index holds and whatever
    time is asked for.  On the entries (100, a), (200, b): the queries 150
    and 200, which the claim answers with a and b, and the query 50, which
    the claim fails with "no suitable artifact", all end in the
    [NameError]; no digest is ever returned and the [ValueError] of the
    method is never raised. *)
Theorem find_digest_raises_name_error :
  find_digest (populate [(100, "a"); (200, "b")]) 150
  = Raise (NameError "bisect")
  /\ find_digest (populate [(100, "a"); (200, "b")]) 50
     = Raise (NameError "bisect")
  /\ find_digest (populate [(100, "a"); (200, "b")]) 200
     = Raise (NameError "bisect")
  /\ (forall (self : t) (q : Z),
        find_digest self q = Raise (NameError "bisect")).
Proof. repeat split. Qed.

End DigestIndexClaims.

Section DockerfileRewrite.
Import Py Integration Spec.
Local Open Scope list_scope.

Lemma terminated_cons c l :
  Ascii.eqb c (ascii_of_nat 10) = false -> terminated l ->
  terminated (String c l).
Proof.
  intros Hc (body & Hb & ->). exists (String c body). simpl.
  rewrite Hc, Hb. split; reflexivity.
Qed.

Lemma readlines_well_formed text : well_formed_lines (readlines text).
Proof.
  induction text as [|c rest IH]; simpl; [exact I|].
  destruct (Ascii.eqb c (ascii_of_nat 10)) eqn:Hc.
  - assert (Ht : terminated LF) by (exists EmptyString; split; reflexivity).
    destruct (readlines rest); simpl; auto.
  - destruct (readlines rest) as [|l ls]; simpl.
    + right. split; [discriminate | simpl; now rewrite Hc].
    + simpl in IH. destruct ls.
      * destruct IH as [Ht | [Hne Hn]].
        -- left. now apply terminated_cons.
        -- right. split; [discriminate | simpl; now rewrite Hc, Hn].
      * destruct IH as [Ht Hw]. split; [now apply terminated_cons | exact Hw].
Qed.

Lemma readlines_unterminated l : unterminated l -> readlines l = [l].
Proof.
  intros [Hne Hn]. induction l as [|c rest IH]; [congruence|].
  simpl in *. apply andb_true_iff in Hn as [Hc Hn].
  apply negb_true_iff in Hc. rewrite Hc.
  destruct rest as [|d rest']; [reflexivity|].
  rewrite IH; [reflexivity | discriminate | assumption].
Qed.

Lemma readlines_terminated body text :
  no_lf body = true ->
  readlines (body ++ LF ++ text)%string = (body ++ LF)%string :: readlines text.
Proof.
  induction body as [|c rest IH]; intros Hn; [reflexivity|].
  simpl in *. apply andb_true_iff in Hn as [Hc Hn].
  apply negb_true_iff in Hc. rewrite Hc, (IH Hn). reflexivity.
Qed.

Lemma append_assoc (a b c : string) :
  ((a ++ b) ++ c = a ++ b ++ c)%string.
Proof. induction a as [|x a IH]; simpl; [reflexivity | now rewrite IH]. Qed.

Lemma append_empty_r (a : string) : (a ++ "")%string = a.
Proof. induction a as [|x a IH]; simpl; [reflexivity | now rewrite IH]. Qed.

Lemma concat_lines_cons l ls :
  concat_lines (l :: ls) = (l ++ concat_lines ls)%string.
Proof.
  unfold concat_lines. destruct ls; simpl; [now rewrite append_empty_r|].
  reflexivity.
Qed.

Lemma readlines_concat_lines ls :
  well_formed_lines ls -> readlines (concat_lines ls) = ls.
Proof.
  induction ls as [|l rest IH]; intros Hw; [reflexivity|].
  rewrite concat_lines_cons. simpl in Hw. destruct rest as [|l' rest'].
  - unfold concat_lines. simpl. rewrite append_empty_r.
    destruct Hw as [(body & Hb & ->) | Hu].
    + replace (body ++ LF)%string with (body ++ LF ++ "")%string by reflexivity.
      now rewrite readlines_terminated.
    + now apply readlines_unterminated.
  - destruct Hw as [(body & Hb & ->) Hw].
    rewrite append_assoc, readlines_terminated, IH; auto.
Qed.


Lemma no_lf_append a b :
  no_lf (a ++ b)%string = no_lf a && no_lf b.
Proof.
  induction a as [|c a IH]; simpl; [reflexivity|].
  now rewrite IH, andb_assoc.
Qed.

Lemma replace_line_terminated digest l :
  no_lf digest = true -> terminated l -> terminated (replace_line digest l).
Proof.
  intros Hd Ht. unfold replace_line.
  destruct (startswith (strip l) "FROM"); [|assumption].
  exists ("FROM gcr.io/oss-fuzz-base/base-builder@" ++ digest)%string. split.
  - rewrite no_lf_append, Hd. reflexivity.
  - now rewrite append_assoc.
Qed.

Lemma replace_line_last digest l :
  no_lf digest = true -> terminated l \/ unterminated l ->
  terminated (replace_line digest l) \/ unterminated (replace_line digest l).
Proof.
  intros Hd [Ht | Hu]; [left; now apply replace_line_terminated|].
  unfold replace_line. destruct (startswith (strip l) "FROM"); [|now right].
  left. exists ("FROM gcr.io/oss-fuzz-base/base-builder@" ++ digest)%string.
  split.
  - rewrite no_lf_append, Hd. reflexivity.
  - now rewrite append_assoc.
Qed.

Lemma replace_lines_well_formed digest ls :
  no_lf digest = true -> well_formed_lines ls ->
  well_formed_lines (map (replace_line digest) ls).
Proof.
  intros Hd. induction ls as [|l rest IH]; intros Hw; [exact I|].
  simpl in *. destruct rest as [|l' rest'].
  - now apply replace_line_last.
  - destruct Hw as [Ht Hw]. split.
    + now apply replace_line_terminated.
    + now apply IH.
Qed.

(** The lines of the file written back are the lines read, each through
    the body of the loop. *)
Lemma readlines_replace_text digest text :
  no_lf digest = true ->
  readlines (replace_text digest text)
  = map (replace_line digest) (readlines text).
Proof.
  intros Hd. unfold replace_text. apply readlines_concat_lines.
  apply replace_lines_well_formed; [assumption | apply readlines_well_formed].
Qed.

End DockerfileRewrite.

Section DockerfileRewriteClaims.
Import Py Integration Spec Examples.
Local Open Scope list_scope.

(** C4, as stated, fails: with two lines that carry the marker, the second
    one is not the first with the marker, and it is rewritten all the
    same. *)
Lemma replace_rewrites_every_from_line :
  ~ rewrites_only_first_match
      "sha256:0"
      ("FROM a" ++ LF ++ "RUN x" ++ LF ++ "FROM b" ++ LF)%string.
Proof.
  intros H.
  specialize (H 2 ("FROM b" ++ LF)%string eq_refl).
  assert (Hlater : nth_error
            (readlines (replace_text "sha256:0"
               ("FROM a" ++ LF ++ "RUN x" ++ LF ++ "FROM b" ++ LF)%string)) 2
          = Some ("FROM b" ++ LF)%string).
  { apply H. right. exists 0, ("FROM a" ++ LF)%string.
    repeat split. lia. }
  vm_compute in Hlater. discriminate.
Qed.

(** C4, amended.  [_replace_base_builder_digest] reads the file and writes
    it back once; the file written has as many lines as the file read; every
    line whose stripped text starts with [FROM] (the first and every later
    one) is replaced by the pinned parent-image line, and every other line
    is found unchanged at the same place, its terminator included. *)
Theorem replace_base_builder_digest_frame :
  forall (E : env) (path digest text : string) (s : state),
    no_lf digest = true ->
    file_text E path = Some text ->
    _replace_base_builder_digest E path digest s
    = (Ok tt,
       {| cwd := cwd s;
          trace := trace s ++ [ReadFile path;
                               WriteFile path (replace_text digest text)] |})
    /\ List.length (readlines (replace_text digest text))
       = List.length (readlines text)
    /\ forall i line,
        nth_error (readlines text) i = Some line ->
        nth_error (readlines (replace_text digest text)) i
        = Some (if is_from_line line
                then ("FROM gcr.io/oss-fuzz-base/base-builder@" ++ digest
                        ++ LF)%string
                else line).
Proof.
  intros E path digest text s Hd Hfile. split; [|split].
  - unfold _replace_base_builder_digest, bind, emit. simpl.
    rewrite Hfile. simpl. now rewrite <- app_assoc.
  - rewrite readlines_replace_text by assumption. apply length_map.
  - intros i line Hline.
    rewrite readlines_replace_text by assumption.
    rewrite nth_error_map, Hline. reflexivity.
Qed.

Lemma replace_base_builder_digest_frame_witness :
  let text := ("# build" ++ LF ++ "  FROM a" ++ LF ++ "RUN x" ++ LF
                 ++ "FROM b")%string in
  no_lf "sha256:0" = true
  /\ readlines (replace_text "sha256:0" text)
     = ["# build" ++ LF;
        "FROM gcr.io/oss-fuzz-base/base-builder@sha256:0" ++ LF;
        "RUN x" ++ LF;
        "FROM gcr.io/oss-fuzz-base/base-builder@sha256:0" ++ LF]%string
  /\ nth_error (readlines (replace_text "sha256:0" text)) 2
     = Some ("RUN x" ++ LF)%string.
Proof.
  intros text. split; [reflexivity|]. split; [reflexivity|].
  exact (proj2 (proj2 (replace_base_builder_digest_frame
                         (dockerfile_env text) "Dockerfile" "sha256:0" text
                         {| cwd := "/"; trace := [] |} eq_refl eq_refl))
           2 ("RUN x" ++ LF)%string eq_refl).
Defined.

End DockerfileRewriteClaims.

Section DockerfileRewriteProperties.
Import Py Integration Spec Examples.
Local Open Scope list_scope.











End DockerfileRewriteProperties.

Section IntegrationClaims.
Import Py Integration Spec Examples.
Local Open Scope list_scope.

Lemma load_base_builder_repo_no_gcloud (E : env) (s : state) :
  find_executable E "gcloud" = None ->
  _load_base_builder_repo E s
  = (Ok None,
     {| cwd := cwd s;
        trace := trace s ++ [LogWarning "gcloud not found in PATH."] |}).
Proof.
  intros H. unfold _load_base_builder_repo. rewrite H. reflexivity.
Qed.

Lemma replace_base_builder_no_gcloud (E : env) dir date (s : state) :
  find_executable E "gcloud" = None ->
  replace_base_builder E dir date s
  = (Ok tt,
     {| cwd := cwd s;
        trace := trace s ++ [LogWarning "gcloud not found in PATH."] |}).
Proof.
  intros H. unfold replace_base_builder, bind.
  rewrite load_base_builder_repo_no_gcloud by assumption. reflexivity.
Qed.

(** C9.  When [gcloud] is not found on the PATH and the copy of the OSS-Fuzz
    files has returned, the integration returns without an exception; after
    the copy step it only logs the warning and writes the manifest: the
    Dockerfile is neither read nor written. *)
Theorem integration_without_registry_client :
  forall (E : env) (project fuzz_target repo_path date_text : string)
         (commit benchmark_name : option string) (date : Z)
         (s after_copy : state) (copied : bool),
    find_executable E "gcloud" = None ->
    fromisoformat E date_text = Some date ->
    copy_oss_fuzz_files E project date
      (path_join (BENCHMARKS_DIR E)
         (get_benchmark_name project fuzz_target benchmark_name)) s
    = (Ok copied, after_copy) ->
    integrate_benchmark E project fuzz_target commit date_text repo_path
      benchmark_name s
    = (Ok tt,
       {| cwd := cwd after_copy;
          trace :=
            trace after_copy
            ++ [LogWarning "gcloud not found in PATH.";
                YamlWrite
                  (path_join
                     (path_join (BENCHMARKS_DIR E)
                        (get_benchmark_name project fuzz_target
                           benchmark_name))
                     "oss-fuzz.yaml")
                  {| Integration.project := project;
                     Integration.fuzz_target := fuzz_target;
                     Integration.commit := commit;
                     commit_date := date;
                     Integration.repo_path := repo_path |}] |}).
Proof.
  intros E project fuzz_target repo_path date_text commit benchmark_name date
         s after_copy copied Hgcloud Hdate Hcopy.
  unfold integrate_benchmark. rewrite Hdate. unfold bind at 1.
  rewrite Hcopy. unfold bind.
  rewrite replace_base_builder_no_gcloud by assumption.
  unfold create_oss_fuzz_yaml, emit. simpl. now rewrite <- app_assoc.
Qed.

Lemma integration_without_registry_client_witness :
  find_executable no_gcloud_env "gcloud" = None
  /\ fromisoformat no_gcloud_env "2021-05-01" = Some 1619827200%Z
  /\ integrate_benchmark no_gcloud_env "foo" "fuzz_target" (Some "9b2c")
       "2021-05-01" "/src/foo" None start
     = (Ok tt,
        {| cwd := "/fuzzbench";
           trace :=
             [Chdir "/fuzzbench/third_party/oss-fuzz";
              Exec ["git"; "log"; "--before=2021-05-01T00:00:00+00:00"; "-n1";
                    "--format=%H";
                    "/fuzzbench/third_party/oss-fuzz/projects/foo"]
                   "/fuzzbench/third_party/oss-fuzz";
              Exec ["git"; "checkout"; "4f3a9c1";
                    "/fuzzbench/third_party/oss-fuzz/projects/foo"]
                   "/fuzzbench/third_party/oss-fuzz";
              CopyTree "/fuzzbench/third_party/oss-fuzz/projects/foo"
                       "/fuzzbench/benchmarks/foo_fuzz_target";
              Exec ["git"; "reset"; "--hard"]
                   "/fuzzbench/third_party/oss-fuzz";
              Chdir "/fuzzbench";
              LogWarning "gcloud not found in PATH.";
              YamlWrite "/fuzzbench/benchmarks/foo_fuzz_target/oss-fuzz.yaml"
                {| project := "foo"; fuzz_target := "fuzz_target";
                   commit := Some "9b2c"; commit_date := 1619827200%Z;
                   repo_path := "/src/foo" |}] |}).
Proof.
  split; [reflexivity|]. split; [reflexivity|].
  exact (integration_without_registry_client no_gcloud_env "foo"
           "fuzz_target" "/src/foo" "2021-05-01" (Some "9b2c") None
           1619827200%Z start _ true eq_refl eq_refl eq_refl).
Defined.

(** C2, on the input of scenario D.  No commit is found: the warning is
    logged and nothing is copied, but [integrate_benchmark] drops the
    [False] that [copy_oss_fuzz_files] returns, goes on to the pinning step
    and writes the manifest. *)
Theorem integration_continues_without_commit :
  integrate_benchmark no_commit_env "foo" "fuzz_target" (Some "9b2c")
    "2021-05-01" "/src/foo" None start
  = (Ok tt,
     {| cwd := "/fuzzbench";
        trace :=
          [Chdir "/fuzzbench/third_party/oss-fuzz";
           Exec ["git"; "log"; "--before=2021-05-01T00:00:00+00:00"; "-n1";
                 "--format=%H"; "/fuzzbench/third_party/oss-fuzz/projects/foo"]
                "/fuzzbench/third_party/oss-fuzz";
           LogWarning "No suitable earlier OSS-Fuzz commit found.";
           Exec ["git"; "reset"; "--hard"] "/fuzzbench/third_party/oss-fuzz";
           Chdir "/fuzzbench";
           LogWarning "gcloud not found in PATH.";
           YamlWrite "/fuzzbench/benchmarks/foo_fuzz_target/oss-fuzz.yaml"
             {| project := "foo"; fuzz_target := "fuzz_target";
                commit := Some "9b2c"; commit_date := 1619827200%Z;
                repo_path := "/src/foo" |}] |})
  /\ copy_oss_fuzz_files no_commit_env "foo" 1619827200%Z
       "/fuzzbench/benchmarks/foo_fuzz_target" start
     = (Ok false,
        {| cwd := "/fuzzbench";
           trace :=
             [Chdir "/fuzzbench/third_party/oss-fuzz";
              Exec ["git"; "log"; "--before=2021-05-01T00:00:00+00:00"; "-n1";
                    "--format=%H";
                    "/fuzzbench/third_party/oss-fuzz/projects/foo"]
                   "/fuzzbench/third_party/oss-fuzz";
              LogWarning "No suitable earlier OSS-Fuzz commit found.";
              Exec ["git"; "reset"; "--hard"]
                   "/fuzzbench/third_party/oss-fuzz";
              Chdir "/fuzzbench"] |}).
Proof. split; reflexivity. Qed.

End IntegrationClaims.

Section IntegrationEffects.
Import Py Integration Spec Examples.
Local Open Scope list_scope.












End IntegrationEffects.

Section GeneratorBasics.
Import Py GenerateMakefile Spec.
Local Open Scope list_scope.

Lemma rules_app (a b : list item) : rules (a ++ b) = rules a ++ rules b.
Proof. apply flat_map_app. Qed.

Lemma targets_app (a b : list item) :
  targets (a ++ b) = targets a ++ targets b.
Proof. unfold targets. now rewrite rules_app, map_app. Qed.

Lemma rules_print (text : list item) : rules (print text) = rules text.
Proof. unfold print. rewrite rules_app. apply app_nil_r. Qed.

Lemma rules_plain (ls : list line) :
  rules (map Plain ls) = flat_map rules_of_line ls.
Proof.
  induction ls as [|l ls IH]; [reflexivity|].
  simpl. f_equal. exact IH.
Qed.

Lemma rules_flat_map {A} (g : A -> list item) (l : list A) :
  rules (flat_map g l) = flat_map (fun x => rules (g x)) l.
Proof.
  induction l as [|x l IH]; [reflexivity|].
  simpl. now rewrite rules_app, IH.
Qed.

Lemma targets_flat_map {A} (g : A -> list item) (l : list A) :
  targets (flat_map g l) = flat_map (fun x => targets (g x)) l.
Proof.
  induction l as [|x l IH]; [reflexivity|].
  simpl. now rewrite targets_app, IH.
Qed.

Lemma filter_flat_map_singleton {A} (P : string -> bool)
      (g : A -> list string) (h : A -> string) (l : list A) :
  (forall x, filter P (g x) = [h x]) ->
  filter P (flat_map g l) = map h l.
Proof.
  intros Hg. induction l as [|x l IH]; [reflexivity|].
  simpl. now rewrite filter_app, Hg, IH.
Qed.

Lemma generate_fuzzer_shape fuzzer benchmarks oss_fuzz_benchmarks v :
  generate_fuzzer fuzzer benchmarks oss_fuzz_benchmarks v
  = per_benchmark fuzzer benchmarks oss_fuzz_benchmarks v
    ++ [Plain (RuleAll (build_all (namespace fuzzer v)
                          (benchmarks ++ oss_fuzz_benchmarks)));
        Plain (RuleAll (pull_all (namespace fuzzer v)
                          (benchmarks ++ oss_fuzz_benchmarks)))].
Proof. destruct v; reflexivity. Qed.

Lemma filter_targets_per_benchmark (P : string -> bool) (h : string -> string)
      fuzzer benchmarks oss_fuzz_benchmarks v :
  filter P (targets (print (FUZZER_TEMPLATE fuzzer BASE_TAG))) = [] ->
  (forall oss b,
      filter P (map target
                  (flat_map rules_of_line
                     (run_targets oss fuzzer (namespace fuzzer v)
                        (match v with
                         | Some v => variant_env v
                         | None => EmptyString
                         end) b BASE_TAG)))
      = [h b]) ->
  (v = None ->
   forall b,
     filter P (targets (FUZZER_BENCHMARK_TEMPLATE fuzzer fuzzer EmptyString b
                          BASE_TAG)) = [h b]) ->
  (v = None ->
   forall b,
     filter P (targets (OSS_FUZZER_BENCHMARK_TEMPLATE fuzzer fuzzer
                          EmptyString b BASE_TAG)) = [h b]) ->
  filter P (targets (per_benchmark fuzzer benchmarks oss_fuzz_benchmarks v))
  = map h (benchmarks ++ oss_fuzz_benchmarks).
Proof.
  intros Hf Hrun Hstd Hoss. rewrite map_app.
  destruct v as [v|]; unfold per_benchmark.
  - rewrite targets_app, filter_app, !targets_flat_map.
    f_equal; apply filter_flat_map_singleton; intros b;
      unfold targets; rewrite rules_print, rules_plain; apply Hrun.
  - rewrite !targets_app, !filter_app, Hf, !targets_flat_map. simpl.
    f_equal; apply filter_flat_map_singleton; intros b;
      unfold targets; rewrite rules_print;
      [apply Hstd | apply Hoss]; reflexivity.
Qed.


End GeneratorBasics.

Section UmbrellaClaims.
Import Py GenerateMakefile Spec Examples.
Local Open Scope list_scope.

Lemma build_targets_per_benchmark fuzzer benchmarks oss_fuzz_benchmarks v :
  filter is_build_target
         (targets (per_benchmark fuzzer benchmarks oss_fuzz_benchmarks v))
  = map (fun b => ("build-" ++ namespace fuzzer v ++ "-" ++ b)%string)
        (benchmarks ++ oss_fuzz_benchmarks).
Proof.
  apply filter_targets_per_benchmark
    with (h := fun b => ("build-" ++ namespace fuzzer v ++ "-" ++ b)%string).
  - reflexivity.
  - intros oss b. reflexivity.
  - intros -> b. unfold targets, rules. simpl.
    destruct (is_coverage fuzzer); reflexivity.
  - intros -> b. unfold targets, rules. simpl.
    destruct (is_coverage fuzzer); reflexivity.
Qed.

Lemma pull_targets_per_benchmark fuzzer benchmarks oss_fuzz_benchmarks v :
  filter is_pull_target
         (targets (per_benchmark fuzzer benchmarks oss_fuzz_benchmarks v))
  = map (fun b => ("pull-" ++ namespace fuzzer v ++ "-" ++ b)%string)
        (benchmarks ++ oss_fuzz_benchmarks).
Proof.
  apply filter_targets_per_benchmark
    with (h := fun b => ("pull-" ++ namespace fuzzer v ++ "-" ++ b)%string).
  - reflexivity.
  - intros oss b. reflexivity.
  - intros -> b. unfold targets, rules. simpl.
    destruct (is_coverage fuzzer); reflexivity.
  - intros -> b. unfold targets, rules. simpl.
    destruct (is_coverage fuzzer); reflexivity.
Qed.

(** C6.  What [generate_fuzzer] prints for a fuzzer, or for a variant, named
    N ends with the rule [build-N-all], whose prerequisites are the
    [build-] targets printed before it, in the order they were printed, and
    with the rule [pull-N-all], likewise over the [pull-] targets.  For the
    fuzzer [afl] without variants and the standard benchmark
    [libxml_parse], make reads [build-afl-libxml_parse],
    [pull-afl-libxml_parse], [run-afl-libxml_parse], and [build-afl-all]
    with the one prerequisite [build-afl-libxml_parse]. *)
Theorem umbrella_targets_after_benchmarks :
  (forall (fuzzer : string) (benchmarks oss_fuzz_benchmarks : list string)
          (v : option variant),
      exists body build pull,
        generate_fuzzer fuzzer benchmarks oss_fuzz_benchmarks v
        = body ++ [Plain (RuleAll build); Plain (RuleAll pull)]
        /\ target build = ("build-" ++ namespace fuzzer v ++ "-all")%string
        /\ prerequisites build = filter is_build_target (targets body)
        /\ target pull = ("pull-" ++ namespace fuzzer v ++ "-all")%string
        /\ prerequisites pull = filter is_pull_target (targets body))
  /\ (let out := main [standard "libxml_parse"] [plain_fuzzer "afl"] in
      In "build-afl-libxml_parse"%string (targets out)
      /\ In "pull-afl-libxml_parse"%string (targets out)
      /\ In "run-afl-libxml_parse"%string (targets out)
      /\ In {| target := "build-afl-all";
               prerequisites := ["build-afl-libxml_parse"%string];
               recipe := [] |} (rules out)).
Proof.
  split.
  - intros fuzzer benchmarks oss_fuzz_benchmarks v.
    exists (per_benchmark fuzzer benchmarks oss_fuzz_benchmarks v),
      (build_all (namespace fuzzer v) (benchmarks ++ oss_fuzz_benchmarks)),
      (pull_all (namespace fuzzer v) (benchmarks ++ oss_fuzz_benchmarks)).
    split; [apply generate_fuzzer_shape|].
    rewrite build_targets_per_benchmark, pull_targets_per_benchmark.
    repeat split.
  - vm_compute. intuition.
Qed.

End UmbrellaClaims.

Section VariantClaims.
Import Py GenerateMakefile Spec Examples.
Local Open Scope list_scope.

(** The rules make reads from one instance of the run-targets templates. *)
Lemma rules_run_targets oss fuzzer n injected b :
  flat_map rules_of_line (run_targets oss fuzzer n injected b BASE_TAG)
  = [ {| target := ("build-" ++ n ++ "-" ++ b)%string;
         prerequisites :=
           [("." ++ fuzzer ++ "-" ++ b ++ runner_suffix oss)%string];
         recipe := [] |};
      {| target := ("pull-" ++ n ++ "-" ++ b)%string;
         prerequisites :=
           [(".pull-" ++ fuzzer ++ "-" ++ b ++ runner_suffix oss)%string];
         recipe := [] |};
      {| target := ("run-" ++ n ++ "-" ++ b)%string;
         prerequisites :=
           [("." ++ fuzzer ++ "-" ++ b ++ runner_suffix oss)%string];
         recipe := run_recipe oss fuzzer injected b BASE_TAG |};
      {| target := ("test-run-" ++ n ++ "-" ++ b)%string;
         prerequisites :=
           [("." ++ fuzzer ++ "-" ++ b ++ runner_suffix oss)%string];
         recipe := test_run_recipe oss fuzzer injected b BASE_TAG |};
      {| target := ("debug-" ++ n ++ "-" ++ b)%string;
         prerequisites :=
           [("." ++ fuzzer ++ "-" ++ b ++ runner_suffix oss)%string];
         recipe := debug_recipe oss fuzzer injected b BASE_TAG |} ].
Proof. reflexivity. Qed.

Lemma rules_variant fuzzer benchmarks oss_fuzz_benchmarks v :
  rules (generate_fuzzer fuzzer benchmarks oss_fuzz_benchmarks (Some v))
  = flat_map (fun b => flat_map rules_of_line
                         (run_targets false fuzzer (name v) (variant_env v) b
                            BASE_TAG)) benchmarks
    ++ flat_map (fun b => flat_map rules_of_line
                            (run_targets true fuzzer (name v) (variant_env v)
                               b BASE_TAG)) oss_fuzz_benchmarks
    ++ [build_all (name v) (benchmarks ++ oss_fuzz_benchmarks);
        pull_all (name v) (benchmarks ++ oss_fuzz_benchmarks)].
Proof.
  rewrite generate_fuzzer_shape. unfold per_benchmark.
  rewrite !rules_app, !rules_flat_map, <- app_assoc.
  reflexivity.
Qed.

(** In the benchmark templates, the rules with a recipe that runs the
    fuzzer are those of the run-targets template. *)
Lemma run_rules_of_benchmark_template fuzzer n injected b r :
  In r (rules (FUZZER_BENCHMARK_TEMPLATE fuzzer n injected b BASE_TAG)) ->
  is_run_target (target r) = true ->
  is_coverage fuzzer = false
  /\ In r (flat_map rules_of_line
             (run_targets false fuzzer n injected b BASE_TAG)).
Proof.
  unfold rules. simpl. destruct (is_coverage fuzzer); simpl; intros Hin Hrun;
    repeat (destruct Hin as [<- | Hin]; [try discriminate Hrun|]);
    try contradiction; split; auto; simpl; auto 10.
Qed.

Lemma run_rules_of_oss_benchmark_template fuzzer n injected b r :
  In r (rules (OSS_FUZZER_BENCHMARK_TEMPLATE fuzzer n injected b BASE_TAG)) ->
  is_run_target (target r) = true ->
  is_coverage fuzzer = false
  /\ In r (flat_map rules_of_line
             (run_targets true fuzzer n injected b BASE_TAG)).
Proof.
  unfold rules. simpl. destruct (is_coverage fuzzer); simpl; intros Hin Hrun;
    repeat (destruct Hin as [<- | Hin]; [try discriminate Hrun|]);
    try contradiction; split; auto; simpl; auto 10.
Qed.

Lemma in_rules_variant fuzzer benchmarks oss_fuzz_benchmarks v r :
  In r (rules (generate_fuzzer fuzzer benchmarks oss_fuzz_benchmarks
                 (Some v))) ->
  (exists oss b,
      In b (if oss : bool then oss_fuzz_benchmarks else benchmarks)
      /\ In r (flat_map rules_of_line
                 (run_targets oss fuzzer (name v) (variant_env v) b
                    BASE_TAG)))
  \/ r = build_all (name v) (benchmarks ++ oss_fuzz_benchmarks)
  \/ r = pull_all (name v) (benchmarks ++ oss_fuzz_benchmarks).
Proof.
  rewrite rules_variant, !in_app_iff, !in_flat_map.
  intros [(b & Hb & Hr) | [(b & Hb & Hr) | [<- | [<- | []]]]]; auto.
  - left. exists false, b. auto.
  - left. exists true, b. auto.
Qed.

Lemma in_rules_own fuzzer benchmarks oss_fuzz_benchmarks r :
  In r (rules (generate_fuzzer fuzzer benchmarks oss_fuzz_benchmarks None)) ->
  is_run_target (target r) = true ->
  is_coverage fuzzer = false
  /\ exists oss b,
      In b (if oss : bool then oss_fuzz_benchmarks else benchmarks)
      /\ In r (flat_map rules_of_line
                 (run_targets oss fuzzer fuzzer EmptyString b BASE_TAG)).
Proof.
  rewrite generate_fuzzer_shape. unfold per_benchmark.
  rewrite !rules_app, !rules_flat_map, !in_app_iff, !in_flat_map.
  intros [[Hr | [(b & Hb & Hr) | (b & Hb & Hr)]] | Hr] Hrun.
  - simpl in Hr. destruct Hr as [<- | [<- | []]]; discriminate Hrun.
  - rewrite rules_print in Hr.
    destruct (run_rules_of_benchmark_template _ _ _ _ _ Hr Hrun).
    split; [assumption|]. exists false, b. auto.
  - rewrite rules_print in Hr.
    destruct (run_rules_of_oss_benchmark_template _ _ _ _ _ Hr Hrun).
    split; [assumption|]. exists true, b. auto.
  - simpl in Hr. destruct Hr as [<- | [<- | []]]; discriminate Hrun.
Qed.

(** C10.  For a variant, the [run-], [test-run-] and [debug-] rules of every
    benchmark are printed with the variant's overrides, each as
    [-e KEY=VALUE] with the value quoted for the shell, on the line of the
    recipe kept for them; every rule printed for the variant that runs the
    fuzzer has the parent fuzzer's runner as its only prerequisite, the
    parent's runner image in its recipe, and these overrides; no rule
    printed for the variant is an image target (a builder or a runner); and
    the parent fuzzer's own rules that run the fuzzer have the empty string
    in the place of the overrides. *)
Theorem variant_environment_isolation :
  forall (fuzzer : string) (benchmarks oss_fuzz_benchmarks : list string)
         (v : variant),
    let injected :=
      join " " (map (fun kv => ("-e " ++ fst kv ++ "="
                                  ++ quote (str (snd kv)))%string) (env v)) in
    let out :=
      rules (generate_fuzzer fuzzer benchmarks oss_fuzz_benchmarks (Some v)) in
    let own :=
      rules (generate_fuzzer fuzzer benchmarks oss_fuzz_benchmarks None) in
    let runner oss b :=
      ("." ++ fuzzer ++ "-" ++ b ++ runner_suffix oss)%string in
    (forall (oss : bool) b,
        In b (if oss then oss_fuzz_benchmarks else benchmarks) ->
        In {| target := ("run-" ++ name v ++ "-" ++ b)%string;
              prerequisites := [runner oss b];
              recipe := run_recipe oss fuzzer injected b BASE_TAG |} out
        /\ In {| target := ("test-run-" ++ name v ++ "-" ++ b)%string;
                 prerequisites := [runner oss b];
                 recipe := test_run_recipe oss fuzzer injected b BASE_TAG |}
              out
        /\ In {| target := ("debug-" ++ name v ++ "-" ++ b)%string;
                 prerequisites := [runner oss b];
                 recipe := debug_recipe oss fuzzer injected b BASE_TAG |} out)
    /\ (forall r, In r out -> is_image_target (target r) = false)
    /\ (forall r, In r out -> is_run_target (target r) = true ->
        exists (oss : bool) b,
          In b (if oss then oss_fuzz_benchmarks else benchmarks)
          /\ prerequisites r = [runner oss b]
          /\ (recipe r = run_recipe oss fuzzer injected b BASE_TAG
              \/ recipe r = test_run_recipe oss fuzzer injected b BASE_TAG
              \/ recipe r = debug_recipe oss fuzzer injected b BASE_TAG))
    /\ (forall r, In r own -> is_run_target (target r) = true ->
        exists (oss : bool) b,
          In b (if oss then oss_fuzz_benchmarks else benchmarks)
          /\ prerequisites r = [runner oss b]
          /\ (recipe r = run_recipe oss fuzzer EmptyString b BASE_TAG
              \/ recipe r = test_run_recipe oss fuzzer EmptyString b BASE_TAG
              \/ recipe r = debug_recipe oss fuzzer EmptyString b BASE_TAG)).
Proof.
  intros fuzzer benchmarks oss_fuzz_benchmarks v injected out own runner.
  change injected with (variant_env v). subst out own.
  split; [|split; [|split]].
  - intros oss b Hb. rewrite rules_variant, !in_app_iff, !in_flat_map.
    destruct oss; repeat split;
      [right; left | right; left | right; left | left | left | left];
      exists b; (split; [assumption|]);
      rewrite rules_run_targets; simpl; auto 10.
  - intros r Hr. apply in_rules_variant in Hr.
    destruct Hr as [(oss & b & _ & Hr) | [-> | ->]]; try reflexivity.
    rewrite rules_run_targets in Hr.
    repeat (destruct Hr as [<- | Hr]; [reflexivity|]). contradiction.
  - intros r Hr Hrun. apply in_rules_variant in Hr.
    destruct Hr as [(oss & b & Hb & Hr) | [-> | ->]]; try discriminate Hrun.
    exists oss, b. split; [assumption|].
    rewrite rules_run_targets in Hr.
    repeat (destruct Hr as [<- | Hr]; [try discriminate Hrun; simpl; auto|]).
    contradiction.
  - intros r Hr Hrun.
    destruct (in_rules_own _ _ _ _ Hr Hrun) as (_ & oss & b & Hb & Hin).
    exists oss, b. split; [assumption|].
    rewrite rules_run_targets in Hin.
    repeat (destruct Hin as [<- | Hin]; [try discriminate Hrun; simpl; auto|]).
    contradiction.
Qed.

End VariantClaims.

Section VariantWitness.
Import Py GenerateMakefile Spec Examples.
Local Open Scope list_scope.

Lemma variant_environment_isolation_witness :
  let v := {| name := "afl_fast";
              env := [("AFL_FAST"%string, YInt 1);
                      ("OPTS"%string, YStr "a b")] |} in
  In "zlib"%string ["zlib"%string]
  /\ In {| target := "run-afl_fast-zlib";
           prerequisites := [".afl-zlib-runner"%string];
           recipe := run_recipe false "afl" "-e AFL_FAST=1 -e OPTS='a b'"
                       "zlib" BASE_TAG |}
        (rules (generate_fuzzer "afl" ["zlib"%string] ["oss_p"%string]
                  (Some v))).
Proof.
  intros v. split; [left; reflexivity|].
  exact (proj1 (proj1 (variant_environment_isolation
                         "afl" ["zlib"%string] ["oss_p"%string] v)
                  false "zlib"%string (or_introl eq_refl))).
Defined.

End VariantWitness.

Section CoverageClaims.
Import Py GenerateMakefile Spec Examples.
Local Open Scope list_scope.

(** For the fuzzer itself the conditional of the templates does the
    exclusion: make reads no rule that runs a coverage-only fuzzer. *)
Lemma coverage_fuzzer_own_rules fuzzer benchmarks oss_fuzz_benchmarks r :
  is_coverage fuzzer = true ->
  In r (rules (generate_fuzzer fuzzer benchmarks oss_fuzz_benchmarks None)) ->
  is_run_target (target r) = false.
Proof.
  intros Hcov Hr. destruct (is_run_target (target r)) eqn:Hrun; [|reflexivity].
  destruct (in_rules_own _ _ _ _ Hr Hrun) as [Hno _]. congruence.
Qed.

(** C3, on a coverage-only fuzzer that declares a variant.  The rules of
    the fuzzer itself are only [build-] and [pull-] convenience targets, but
    the rules printed for the variant stand outside any conditional: make
    reads [run-], [test-run-] and [debug-] targets for it, over a runner
    that no rule makes. *)
Theorem coverage_variant_run_targets :
  let out :=
    main [standard "zlib"]
         [fuzzer_with "coverage" [{| name := "coverage_fast"; env := [] |}]] in
  is_coverage "coverage" = true
  /\ filter is_run_target (targets out)
     = ["run-coverage_fast-zlib"; "test-run-coverage_fast-zlib";
        "debug-coverage_fast-zlib"]%string
  /\ In {| target := "run-coverage_fast-zlib";
           prerequisites := [".coverage-zlib-runner"%string];
           recipe := run_recipe false "coverage" "" "zlib" BASE_TAG |}
        (rules out)
  /\ existsb (String.eqb ".coverage-zlib-runner") (targets out) = false
  /\ filter (fun t => is_build_target t || is_pull_target t)
            (targets (generate_fuzzer "coverage" ["zlib"%string] [] None))
     = ["build-coverage-zlib"; "pull-coverage-zlib"; "build-coverage-all";
        "pull-coverage-all"]%string.
Proof.
  cbv zeta. split; [reflexivity|]. split; [reflexivity|].
  split; [vm_compute; intuition|]. split; reflexivity.
Qed.

End CoverageClaims.

Section GeneratorRuns.
Import Py GenerateMakefile Spec Examples.
Local Open Scope list_scope.

Lemma prints_ret {A} tree (a : A) : prints tree (Script.ret a) a "".
Proof. intros out. unfold Script.ret. now rewrite append_empty_r. Qed.

Lemma prints_bind {A B} tree (m : Script.IO A) (k : A -> Script.IO B)
      a b t1 t2 :
  prints tree m a t1 -> prints tree (k a) b t2 ->
  prints tree (Script.bind m k) b (t1 ++ t2)%string.
Proof.
  intros Hm Hk out. unfold Script.bind. rewrite Hm, Hk.
  now rewrite append_assoc.
Qed.

Lemma prints_ask {A} tree (question : Script.files -> A) :
  prints tree (Script.ask question) (question tree) "".
Proof. intros out. unfold Script.ask. simpl. now rewrite append_empty_r. Qed.

Lemma prints_print tree text :
  prints tree (Script.print text) tt (text ++ LF)%string.
Proof. intros out. reflexivity. Qed.

Lemma prints_text {A} tree (m : Script.IO A) a t t' :
  prints tree m a t -> t = t' -> prints tree m a t'.
Proof. now intros H <-. Qed.

Lemma concat_cons (x : string) (xs : list string) :
  String.concat "" (x :: xs) = (x ++ String.concat "" xs)%string.
Proof. destruct xs; simpl; [now rewrite append_empty_r | reflexivity]. Qed.

Lemma concat_app (a b : list string) :
  String.concat "" (a ++ b)
  = (String.concat "" a ++ String.concat "" b)%string.
Proof.
  induction a as [|x a IH]; [reflexivity|].
  rewrite <- app_comm_cons, !concat_cons, IH. now rewrite append_assoc.
Qed.

Lemma render_app (a b : list item) :
  render (a ++ b) = (render a ++ render b)%string.
Proof. unfold render. now rewrite map_app, concat_app. Qed.

Lemma render_print (text : list item) :
  render (GenerateMakefile.print text) = (render text ++ LF)%string.
Proof. unfold GenerateMakefile.print. now rewrite render_app. Qed.

Lemma render_flat_map {A} (g : A -> list item) (l : list A) :
  render (flat_map g l)
  = String.concat "" (map (fun x => render (g x)) l).
Proof.
  induction l as [|x l IH]; [reflexivity|].
  cbn [flat_map map]. now rewrite render_app, concat_cons, IH.
Qed.

Lemma prints_for_each {A S} tree (l : list A)
      (body : A -> S -> Script.IO S) (step : A -> S -> S)
      (text : A -> string) :
  (forall x s, prints tree (body x s) (step x s) (text x)) ->
  forall s,
    prints tree (Script.for_each l body s)
           (fold_left (fun s x => step x s) l s)
           (String.concat "" (map text l)).
Proof.
  intros Hbody. induction l as [|x l IH]; intros s.
  - apply prints_ret.
  - cbn [Script.for_each fold_left map]. rewrite concat_cons.
    eapply prints_bind; [apply Hbody | apply IH].
Qed.

Lemma prints_for_each_print {A} tree (l : list A) (text : A -> string) :
  prints tree
         (Script.for_each l (fun x _ => Script.print (text x)) tt) tt
         (String.concat "" (map (fun x => text x ++ LF)%string l)).
Proof.
  induction l as [|x l IH].
  - apply prints_ret.
  - cbn [Script.for_each map]. rewrite concat_cons.
    eapply prints_bind; [apply prints_print | apply IH].
Qed.

Lemma render_flat_map_print {A} (g : A -> list item) (l : list A) :
  render (flat_map (fun x => GenerateMakefile.print (g x)) l)
  = String.concat "" (map (fun x => render (g x) ++ LF)%string l).
Proof.
  rewrite render_flat_map. f_equal. apply map_ext. intros x.
  apply render_print.
Qed.

Lemma render_umbrellas (t1 t2 : string) (ps1 ps2 : list string) :
  render [Plain (RuleAll {| target := t1; prerequisites := ps1;
                            recipe := [] |});
          Plain (RuleAll {| target := t2; prerequisites := ps2;
                            recipe := [] |})]
  = ((t1 ++ ": " ++ join " " ps1 ++ LF)
       ++ (t2 ++ ": " ++ join " " ps2 ++ LF))%string.
Proof. reflexivity. Qed.

Lemma umbrella_text (prefix n targets : string) :
  ((prefix ++ n ++ "-all") ++ ": " ++ targets ++ LF
   = (prefix ++ n ++ "-all: " ++ targets) ++ LF)%string.
Proof. rewrite !append_assoc. reflexivity. Qed.

Lemma generate_fuzzer_prints tree fuzzer benchmarks oss_fuzz_benchmarks v :
  prints tree
         (Script.generate_fuzzer fuzzer benchmarks oss_fuzz_benchmarks v) tt
         (render (generate_fuzzer fuzzer benchmarks oss_fuzz_benchmarks v)).
Proof.
  unfold Script.generate_fuzzer, generate_fuzzer.
  rewrite render_app, render_umbrellas, !umbrella_text.
  destruct v as [v|].
  - rewrite render_app, !render_flat_map_print.
    eapply prints_text.
    + eapply prints_bind.
      * eapply prints_bind; [apply prints_for_each_print|].
        eapply prints_bind; [apply prints_for_each_print|].
        apply prints_ret.
      * eapply prints_bind; apply prints_print.
    + cbv beta. rewrite append_empty_r. reflexivity.
  - rewrite !render_app, render_print, !render_flat_map_print.
    eapply prints_text.
    + eapply prints_bind.
      * eapply prints_bind; [apply prints_print|].
        eapply prints_bind; [apply prints_for_each_print|].
        eapply prints_bind; [apply prints_for_each_print|].
        apply prints_ret.
      * eapply prints_bind; apply prints_print.
    + cbv beta. rewrite append_empty_r. reflexivity.
Qed.

Lemma concat_empty {A} (l : list A) :
  String.concat "" (map (fun _ => ""%string) l) = ""%string.
Proof.
  induction l as [|x l IH]; [reflexivity|].
  cbn [map]. now rewrite concat_cons, IH.
Qed.

Lemma scan_benchmark_prints dirname tree benchmark lists :
  prints tree (Script.scan_benchmark dirname benchmark lists)
         (scan_step (Script.benchmark_entry_of dirname tree benchmark) lists)
         "".
Proof.
  destruct lists as [benchmarks oss_fuzz_benchmarks].
  unfold Script.scan_benchmark, scan_step, Script.benchmark_entry_of.
  cbn [benchmark_isdir has_build_sh has_oss_fuzz_yaml benchmark_name fst snd].
  eapply prints_text.
  - eapply prints_bind; [apply prints_ask|]. cbv beta.
    destruct (Script.isdir tree _); cbn [negb].
    + eapply prints_bind; [apply prints_ask|].
      eapply prints_bind; [apply prints_ask|].
      cbv beta.
      match goal with
      | |- prints _ (Script.ret ?a) ?b _ =>
          replace b with a; [apply prints_ret|]
      end.
      destruct (Script.exists_path tree _), (Script.exists_path tree _);
        now rewrite ?app_nil_r.
    + apply prints_ret.
  - reflexivity.
Qed.

Lemma fold_scan_step (listing : list benchmark_entry) lists :
  fold_left (fun lists e => scan_step e lists) listing lists
  = (fst lists ++ fst (scan_benchmarks listing),
     snd lists ++ snd (scan_benchmarks listing)).
Proof.
  revert lists. induction listing as [|e rest IH]; intros [bs os].
  - cbn. now rewrite !app_nil_r.
  - cbn [fold_left scan_benchmarks]. rewrite IH.
    destruct (scan_benchmarks rest) as [bs' os'].
    unfold scan_step. destruct (benchmark_isdir e); cbn [negb fst snd].
    + now rewrite <- !app_assoc.
    + reflexivity.
Qed.

Lemma fold_left_over_map {A B S} (f : S -> B -> S) (g : A -> B)
      (l : list A) (s : S) :
  fold_left f (map g l) s = fold_left (fun s x => f s (g x)) l s.
Proof.
  revert s. induction l as [|x l IH]; intros s; [reflexivity|].
  cbn [map fold_left]. apply IH.
Qed.

Lemma scan_loop_prints dirname tree (names : list string) :
  prints tree
         (Script.for_each names (Script.scan_benchmark dirname) ([], []))
         (scan_benchmarks (map (Script.benchmark_entry_of dirname tree) names))
         "".
Proof.
  eapply prints_text.
  - assert (H := prints_for_each tree names (Script.scan_benchmark dirname)
                   (fun benchmark =>
                      scan_step (Script.benchmark_entry_of dirname tree
                                   benchmark))
                   (fun _ => ""%string)
                   (fun x s => scan_benchmark_prints dirname tree x s)
                   ([], [])).
    rewrite <- (fold_left_over_map
                  (fun lists e => scan_step e lists)
                  (Script.benchmark_entry_of dirname tree)) in H.
    rewrite fold_scan_step in H. cbn [fst snd app] in H.
    rewrite <- surjective_pairing in H. exact H.
  - apply concat_empty.
Qed.

Lemma app_cons_end {A} (l : list A) (x : A) (r : list A) :
  l ++ x :: r = (l ++ [x]) ++ r.
Proof. now rewrite <- app_assoc. Qed.

Lemma variants_loop_prints tree fuzzer benchmarks oss_fuzz_benchmarks
      (vs : list variant) (names : list string) :
  prints tree
         (Script.for_each vs
            (fun fuzzer_variant fuzzers_and_variants =>
               Script.bind
                 (Script.generate_fuzzer fuzzer benchmarks
                    oss_fuzz_benchmarks (Some fuzzer_variant))
                 (fun _ =>
                    Script.ret
                      (fuzzers_and_variants ++ [name fuzzer_variant])))
            names)
         (names ++ map name vs)
         (render (flat_map (fun fuzzer_variant =>
                              generate_fuzzer fuzzer benchmarks
                                oss_fuzz_benchmarks (Some fuzzer_variant))
                           vs)).
Proof.
  revert names. induction vs as [|v vs IH]; intros names.
  - cbn [Script.for_each map flat_map]. rewrite app_nil_r. apply prints_ret.
  - cbn [Script.for_each map flat_map]. rewrite render_app.
    eapply prints_bind.
    + eapply prints_text.
      * eapply prints_bind; [apply generate_fuzzer_prints | apply prints_ret].
      * apply append_empty_r.
    + rewrite (app_cons_end names (name v) (map name vs)). apply IH.
Qed.

Lemma generate_entry_prints dirname tree benchmarks oss_fuzz_benchmarks
      fuzzer (names : list string) :
  prints tree
         (Script.generate_entry dirname benchmarks oss_fuzz_benchmarks
            fuzzer names)
         (names ++ snd (generate_entry benchmarks oss_fuzz_benchmarks
                          (Script.fuzzer_entry_of dirname tree fuzzer)))
         (render (fst (generate_entry benchmarks oss_fuzz_benchmarks
                         (Script.fuzzer_entry_of dirname tree fuzzer)))).
Proof.
  unfold Script.generate_entry, generate_entry, Script.fuzzer_entry_of.
  cbn [fuzzer_isdir fuzzer_name variants].
  destruct (Script.isdir tree _) eqn:Hdir; cbn [negb].
  - destruct (Script.exists_path tree _) eqn:Hvariants; cbn [fst snd].
    + rewrite render_app.
      eapply prints_text.
      * eapply prints_bind; [apply prints_ask|].
        cbv beta. rewrite Hdir. cbn [negb].
        eapply prints_bind; [apply generate_fuzzer_prints|].
        eapply prints_bind; [apply prints_ask|].
        cbv beta. rewrite Hvariants. cbn [negb].
        eapply prints_bind; [apply prints_ask|].
        rewrite (app_cons_end names fuzzer (map name _)).
        apply variants_loop_prints.
      * reflexivity.
    + eapply prints_text.
      * eapply prints_bind; [apply prints_ask|].
        cbv beta. rewrite Hdir. cbn [negb].
        eapply prints_bind; [apply generate_fuzzer_prints|].
        eapply prints_bind; [apply prints_ask|].
        cbv beta. rewrite Hvariants. cbn [negb].
        apply prints_ret.
      * cbn [append]. now rewrite append_empty_r.
  - cbn [fst snd]. rewrite app_nil_r.
    eapply prints_text.
    + eapply prints_bind; [apply prints_ask|].
      cbv beta. rewrite Hdir. cbn [negb]. apply prints_ret.
    + reflexivity.
Qed.

Lemma fuzzers_loop_prints dirname tree benchmarks oss_fuzz_benchmarks
      (listing names : list string) :
  let generated :=
    map (generate_entry benchmarks oss_fuzz_benchmarks)
        (map (Script.fuzzer_entry_of dirname tree) listing) in
  prints tree
         (Script.for_each listing
            (Script.generate_entry dirname benchmarks oss_fuzz_benchmarks)
            names)
         (names ++ flat_map snd generated)
         (render (flat_map fst generated)).
Proof.
  revert names. induction listing as [|fuzzer listing IH]; intros names.
  - cbn. rewrite app_nil_r. apply prints_ret.
  - cbn [Script.for_each map flat_map]. rewrite render_app, app_assoc.
    eapply prints_bind; [apply generate_entry_prints | apply IH].
Qed.

Lemma main_prints dirname tree :
  prints tree (Script.main dirname) tt
         (render (main (Script.benchmark_entries dirname tree)
                       (Script.fuzzer_entries dirname tree))).
Proof.
  unfold Script.main, main, Script.benchmark_entries, Script.fuzzer_entries.
  destruct (scan_benchmarks _) as [benchmarks oss_fuzz_benchmarks] eqn:Hscan.
  rewrite !render_app, render_print, render_umbrellas.
  eapply prints_text.
  - eapply prints_bind; [apply prints_print|].
    eapply prints_bind; [apply prints_ask|].
    eapply prints_bind; [apply scan_loop_prints|].
    rewrite Hscan.
    eapply prints_bind; [apply prints_ask|].
    eapply prints_bind;
      [apply (fuzzers_loop_prints dirname tree benchmarks oss_fuzz_benchmarks
                _ [])|].
    eapply prints_bind; apply prints_print.
  - cbn [app]. rewrite !append_assoc. reflexivity.
Qed.

Lemma generate_entry_directory benchmarks oss_fuzz_benchmarks e :
  generate_entry benchmarks oss_fuzz_benchmarks e
  = if fuzzer_isdir e
    then generate_entry benchmarks oss_fuzz_benchmarks
           {| fuzzer_name := fuzzer_name e; fuzzer_isdir := true;
              variants := variants e |}
    else ([], []).
Proof.
  unfold generate_entry. cbn [fuzzer_isdir fuzzer_name variants].
  now destruct (fuzzer_isdir e).
Qed.

Lemma generated_of_directories benchmarks oss_fuzz_benchmarks
      (fuzzers_listing : list fuzzer_entry) :
  let directory (p : string * option (list variant)) :=
    generate_entry benchmarks oss_fuzz_benchmarks
      {| fuzzer_name := fst p; fuzzer_isdir := true; variants := snd p |} in
  flat_map fst (map (generate_entry benchmarks oss_fuzz_benchmarks)
                    fuzzers_listing)
  = flat_map fst (map directory (fuzzers_with_variants fuzzers_listing))
  /\ flat_map snd (map (generate_entry benchmarks oss_fuzz_benchmarks)
                       fuzzers_listing)
     = flat_map snd (map directory (fuzzers_with_variants fuzzers_listing)).
Proof.
  intros directory. unfold fuzzers_with_variants.
  induction fuzzers_listing as [|e rest [IHfst IHsnd]]; [now split|].
  cbn [map flat_map filter]. rewrite IHfst, IHsnd.
  rewrite (generate_entry_directory _ _ e).
  destruct (fuzzer_isdir e); now split.
Qed.

Lemma main_of_scanned_input
      (benchmarks_listing1 benchmarks_listing2 : list benchmark_entry)
      (fuzzers_listing1 fuzzers_listing2 : list fuzzer_entry) :
  scan_benchmarks benchmarks_listing1 = scan_benchmarks benchmarks_listing2 ->
  fuzzers_with_variants fuzzers_listing1
  = fuzzers_with_variants fuzzers_listing2 ->
  main benchmarks_listing1 fuzzers_listing1
  = main benchmarks_listing2 fuzzers_listing2.
Proof.
  intros Hscan Hfuzzers. unfold main. rewrite Hscan.
  destruct (scan_benchmarks benchmarks_listing2)
    as [benchmarks oss_fuzz_benchmarks].
  destruct (generated_of_directories benchmarks oss_fuzz_benchmarks
              fuzzers_listing1) as [-> ->].
  destruct (generated_of_directories benchmarks oss_fuzz_benchmarks
              fuzzers_listing2) as [-> ->].
  now rewrite Hfuzzers.
Qed.

End GeneratorRuns.

Section DeterminismClaims.
Import Py GenerateMakefile Spec Examples.
Local Open Scope list_scope.

(** C7.  The generator is a function of its scanned input.  Take two runs,
    in any two places and on any two file systems, that scan the same list
    of standard benchmarks, the same list of externally-derived benchmarks
    and the same list of fuzzers with their variants, each in the same
    order, and start each on a standard output holding anything.  Each run
    returns, leaves its file system as it found it, and appends to its
    standard output the same bytes, those of the statements of [main] for
    that scan; a second run after the first appends these bytes once
    more. *)
Theorem generator_runs_are_byte_identical :
  forall (dirname1 dirname2 : string) (tree1 tree2 : Script.files)
         (out1 out2 : string),
    scanned_input dirname1 tree1 = scanned_input dirname2 tree2 ->
    let bytes :=
      render (main (Script.benchmark_entries dirname1 tree1)
                   (Script.fuzzer_entries dirname1 tree1)) in
    Script.main dirname1 {| Script.fs := tree1; Script.stdout := out1 |}
    = (tt, {| Script.fs := tree1; Script.stdout := (out1 ++ bytes)%string |})
    /\ Script.main dirname2 {| Script.fs := tree2; Script.stdout := out2 |}
       = (tt, {| Script.fs := tree2;
                 Script.stdout := (out2 ++ bytes)%string |})
    /\ Script.main dirname1
         (snd (Script.main dirname1
                 {| Script.fs := tree1; Script.stdout := out1 |}))
       = (tt, {| Script.fs := tree1;
                 Script.stdout := (out1 ++ bytes ++ bytes)%string |}).
Proof.
  intros dirname1 dirname2 tree1 tree2 out1 out2 Hscan bytes.
  injection Hscan as Hbenchmarks Hfuzzers.
  assert (Hmain := main_of_scanned_input _ _ _ _ Hbenchmarks Hfuzzers).
  repeat split.
  - apply main_prints.
  - subst bytes. rewrite Hmain. apply main_prints.
  - rewrite (main_prints dirname1 tree1 out1). cbn [snd].
    rewrite (main_prints dirname1 tree1). fold bytes.
    now rewrite append_assoc.
Qed.

Lemma generator_runs_are_byte_identical_witness :
  scanned_input "docker" checkout
  = scanned_input "/work/docker" cluttered_checkout
  /\ Script.stdout
       (snd (Script.main "docker"
               {| Script.fs := checkout; Script.stdout := "" |}))
     = Script.stdout
         (snd (Script.main "/work/docker"
                 {| Script.fs := cluttered_checkout; Script.stdout := "" |})).
Proof.
  split; [reflexivity|].
  destruct (generator_runs_are_byte_identical "docker" "/work/docker"
              checkout cluttered_checkout "" "" eq_refl) as (H1 & H2 & _).
  rewrite H1, H2. reflexivity.
Defined.

End DeterminismClaims.



Section AcyclicityLemmas.
Import Py GenerateMakefile Spec Examples.
Local Open Scope list_scope.

Lemma defined_before_incl known known' rs :
  incl known known' -> defined_before known rs -> defined_before known' rs.
Proof.
  revert known known'. induction rs as [|r rest IH]; intros k k' Hi; [auto|].
  simpl. intros [Hp Hrest]. split.
  - intros p Hin. apply Hi, Hp, Hin.
  - apply (IH (target r :: k)); [|assumption].
    intros x [<- | Hx]; [left; reflexivity | right; apply Hi, Hx].
Qed.

Lemma defined_before_app known a b :
  defined_before known a ->
  defined_before (map target a ++ known) b ->
  defined_before known (a ++ b).
Proof.
  revert known. induction a as [|r rest IH]; intros k Ha Hb; [exact Hb|].
  simpl in *. destruct Ha as [Hp Hrest]. split; [assumption|].
  apply IH; [assumption|].
  apply (defined_before_incl (target r :: map target rest ++ k));
    [|assumption].
  intros x [<- | Hx]; apply in_or_app.
  - right. left. reflexivity.
  - apply in_app_or in Hx as [Hx | Hx]; [left | right; right]; assumption.
Qed.

Lemma defined_before_flat_map {A} (g : A -> list rule) (l : list A) known :
  (forall x known', incl known known' -> In x l ->
                    defined_before known' (g x)) ->
  defined_before known (flat_map g l).
Proof.
  revert known. induction l as [|x l IH]; intros k Hg; [exact I|].
  simpl. apply defined_before_app.
  - apply Hg; [apply incl_refl | left; reflexivity].
  - apply IH. intros y k' Hi Hy. apply Hg; [|right; assumption].
    intros z Hz. apply Hi, in_or_app. right. assumption.
Qed.

Lemma defined_before_known known rs :
  defined_before known rs -> prerequisites_known known rs.
Proof.
  revert known. induction rs as [|r rest IH]; intros k Hd pre r' post Heq p Hp.
  - destruct pre; discriminate.
  - destruct Hd as [Hr Hrest]. destruct pre as [|x pre]; simpl in Heq.
    + injection Heq as -> ->. left. apply Hr, Hp.
    + injection Heq as -> ->.
      destruct (IH _ Hrest pre r' post eq_refl p Hp) as [[<- | Hk] | Hpre].
      * right. left. reflexivity.
      * left. assumption.
      * right. right. assumption.
Qed.

End AcyclicityLemmas.

Section AcyclicityTemplates.
Import Py GenerateMakefile Spec Examples.
Local Open Scope list_scope.

Ltac known := simpl; auto 40.

Ltac each_prerequisite :=
  repeat split;
  try (intros p Hp; simpl in Hp;
       repeat (destruct Hp as [<- | Hp]; [solve [known]|]);
       contradiction).

Lemma defined_before_fuzzer_template known fuzzer :
  incl base_targets known ->
  defined_before known (rules (print (FUZZER_TEMPLATE fuzzer BASE_TAG))).
Proof.
  intros Hb.
  assert (H1 := Hb "base-builder"%string ltac:(known)).
  assert (H2 := Hb "pull-base-builder"%string ltac:(known)).
  unfold rules. simpl. each_prerequisite.
Qed.

Lemma defined_before_run_targets known oss fuzzer n injected b :
  In ("." ++ fuzzer ++ "-" ++ b ++ runner_suffix oss)%string known ->
  In (".pull-" ++ fuzzer ++ "-" ++ b ++ runner_suffix oss)%string known ->
  defined_before known
    (flat_map rules_of_line (run_targets oss fuzzer n injected b BASE_TAG)).
Proof.
  intros H1 H2. rewrite rules_run_targets. simpl. each_prerequisite.
Qed.

Lemma defined_before_benchmark_template known fuzzer b :
  incl base_targets known ->
  In ("." ++ fuzzer ++ "-builder")%string known ->
  In (".pull-" ++ fuzzer ++ "-builder")%string known ->
  defined_before known
    (rules (print (FUZZER_BENCHMARK_TEMPLATE fuzzer fuzzer EmptyString b
                     BASE_TAG))).
Proof.
  intros Hb H1 H2.
  assert (H3 := Hb "base-runner"%string ltac:(known)).
  assert (H4 := Hb "pull-base-runner"%string ltac:(known)).
  unfold rules. simpl. destruct (is_coverage fuzzer); simpl; each_prerequisite.
Qed.

Lemma defined_before_oss_benchmark_template known fuzzer b :
  incl base_targets known ->
  defined_before known
    (rules (print (OSS_FUZZER_BENCHMARK_TEMPLATE fuzzer fuzzer EmptyString b
                     BASE_TAG))).
Proof.
  intros Hb.
  assert (H3 := Hb "base-runner"%string ltac:(known)).
  assert (H4 := Hb "pull-base-runner"%string ltac:(known)).
  unfold rules. simpl. destruct (is_coverage fuzzer); simpl; each_prerequisite.
Qed.

End AcyclicityTemplates.

Section AcyclicityClaims.
Import Py GenerateMakefile Spec Examples.
Local Open Scope list_scope.

Lemma rules_generate_fuzzer fuzzer benchmarks oss_fuzz_benchmarks v :
  rules (generate_fuzzer fuzzer benchmarks oss_fuzz_benchmarks v)
  = rules (per_benchmark fuzzer benchmarks oss_fuzz_benchmarks v)
    ++ [build_all (namespace fuzzer v) (benchmarks ++ oss_fuzz_benchmarks);
        pull_all (namespace fuzzer v) (benchmarks ++ oss_fuzz_benchmarks)].
Proof. now rewrite generate_fuzzer_shape, rules_app. Qed.

(** The umbrella rules only name targets printed before them. *)
Lemma defined_before_umbrella known fuzzer benchmarks oss_fuzz_benchmarks v :
  defined_before known
    (rules (per_benchmark fuzzer benchmarks oss_fuzz_benchmarks v)) ->
  defined_before known
    (rules (generate_fuzzer fuzzer benchmarks oss_fuzz_benchmarks v)).
Proof.
  intros Hbody. rewrite rules_generate_fuzzer.
  apply defined_before_app; [assumption|].
  split; [|split; [|exact I]]; intros p Hp;
    unfold build_all, pull_all in Hp; cbn [prerequisites] in Hp.
  - apply in_or_app. left.
    rewrite <- build_targets_per_benchmark in Hp.
    apply filter_In in Hp. apply Hp.
  - right. apply in_or_app. left.
    rewrite <- pull_targets_per_benchmark in Hp.
    apply filter_In in Hp. apply Hp.
Qed.

Lemma defined_before_own known fuzzer benchmarks oss_fuzz_benchmarks :
  incl base_targets known ->
  defined_before known
    (rules (generate_fuzzer fuzzer benchmarks oss_fuzz_benchmarks None)).
Proof.
  intros Hb. apply defined_before_umbrella. unfold per_benchmark.
  rewrite !rules_app, !rules_flat_map. apply defined_before_app.
  - now apply defined_before_fuzzer_template.
  - assert (Hbase : incl base_targets
                      (map target (rules (print (FUZZER_TEMPLATE fuzzer
                                                   BASE_TAG))) ++ known)).
    { intros x Hx. apply in_or_app. right. apply Hb, Hx. }
    apply defined_before_app;
      apply defined_before_flat_map; intros b known' Hi _.
    + apply defined_before_benchmark_template.
      * intros x Hx. apply Hi, Hbase, Hx.
      * apply Hi. simpl. auto.
      * apply Hi. simpl. auto.
    + apply defined_before_oss_benchmark_template.
      intros x Hx. apply Hi, in_or_app. right. apply Hbase, Hx.
Qed.

(** The runner targets of a fuzzer that is not coverage-only. *)
Lemma runner_targets_of_own fuzzer benchmarks oss_fuzz_benchmarks
      (oss : bool) b :
  is_coverage fuzzer = false ->
  In b (if oss then oss_fuzz_benchmarks else benchmarks) ->
  In ("." ++ fuzzer ++ "-" ++ b ++ runner_suffix oss)%string
     (targets (generate_fuzzer fuzzer benchmarks oss_fuzz_benchmarks None))
  /\ In (".pull-" ++ fuzzer ++ "-" ++ b ++ runner_suffix oss)%string
        (targets (generate_fuzzer fuzzer benchmarks oss_fuzz_benchmarks None)).
Proof.
  intros Hcov Hb. rewrite generate_fuzzer_shape. unfold per_benchmark.
  rewrite !targets_app, !targets_flat_map, !in_app_iff, !in_flat_map.
  destruct oss.
  - split; left; right; right; exists b; (split; [assumption|]);
      unfold targets, rules; simpl; rewrite Hcov; simpl; auto 20.
  - split; left; right; left; exists b; (split; [assumption|]);
      unfold targets, rules; simpl; rewrite Hcov; simpl; auto 20.
Qed.

Lemma defined_before_variant known fuzzer benchmarks oss_fuzz_benchmarks v :
  (forall (oss : bool) b,
      In b (if oss then oss_fuzz_benchmarks else benchmarks) ->
      In ("." ++ fuzzer ++ "-" ++ b ++ runner_suffix oss)%string known
      /\ In (".pull-" ++ fuzzer ++ "-" ++ b ++ runner_suffix oss)%string
            known) ->
  defined_before known
    (rules (generate_fuzzer fuzzer benchmarks oss_fuzz_benchmarks (Some v))).
Proof.
  intros Hrunners. apply defined_before_umbrella. unfold per_benchmark.
  rewrite rules_app, !rules_flat_map.
  apply defined_before_app; apply defined_before_flat_map;
    intros b known' Hi Hb; rewrite rules_print, rules_plain.
  - destruct (Hrunners false b Hb).
    apply defined_before_run_targets; apply Hi; assumption.
  - destruct (Hrunners true b Hb).
    apply defined_before_run_targets; apply Hi, in_or_app; right; assumption.
Qed.

Lemma defined_before_entry known benchmarks oss_fuzz_benchmarks e :
  incl base_targets known ->
  (forall v vs, fuzzer_isdir e = true -> is_coverage (fuzzer_name e) = true ->
                variants e = Some vs -> ~ In v vs) ->
  defined_before known
    (rules (fst (generate_entry benchmarks oss_fuzz_benchmarks e))).
Proof.
  intros Hb Hcov. unfold generate_entry.
  destruct (fuzzer_isdir e) eqn:Hdir; cbn [negb fst]; [|exact I].
  destruct (variants e) as [vs|] eqn:Hvs; cbn [fst];
    [|now apply defined_before_own].
  rewrite rules_app. apply defined_before_app;
    [now apply defined_before_own|].
  rewrite rules_flat_map. apply defined_before_flat_map.
  intros v known' Hi Hv.
  destruct (is_coverage (fuzzer_name e)) eqn:Hc.
  - exfalso. exact (Hcov v vs eq_refl eq_refl eq_refl Hv).
  - apply defined_before_variant. intros oss b Hin.
    destruct (runner_targets_of_own (fuzzer_name e) benchmarks
                oss_fuzz_benchmarks oss b Hc Hin) as [H1 H2].
    split; apply Hi, in_or_app; left; assumption.
Qed.

Lemma rules_main benchmarks_listing fuzzers_listing :
  let benchmarks := fst (scan_benchmarks benchmarks_listing) in
  let oss_fuzz_benchmarks := snd (scan_benchmarks benchmarks_listing) in
  let generated :=
    map (generate_entry benchmarks oss_fuzz_benchmarks) fuzzers_listing in
  rules (main benchmarks_listing fuzzers_listing)
  = rules (flat_map fst generated)
    ++ [ {| target := "build-all";
            prerequisites :=
              map (fun n => ("build-" ++ n ++ "-all")%string)
                  (flat_map snd generated);
            recipe := [] |};
         {| target := "pull-all";
            prerequisites :=
              map (fun n => ("pull-" ++ n ++ "-all")%string)
                  (flat_map snd generated);
            recipe := [] |} ].
Proof.
  unfold main. destruct (scan_benchmarks benchmarks_listing) as [B O].
  simpl. now rewrite rules_app.
Qed.

Lemma umbrella_in_targets fuzzer benchmarks oss_fuzz_benchmarks v :
  In ("build-" ++ namespace fuzzer v ++ "-all")%string
     (targets (generate_fuzzer fuzzer benchmarks oss_fuzz_benchmarks v))
  /\ In ("pull-" ++ namespace fuzzer v ++ "-all")%string
        (targets (generate_fuzzer fuzzer benchmarks oss_fuzz_benchmarks v)).
Proof.
  unfold targets. rewrite rules_generate_fuzzer, map_app, !in_app_iff.
  split; right; simpl; auto.
Qed.

(** Every name appended to [fuzzers_and_variants] has its two umbrella
    rules among those printed for the entry. *)
Lemma entry_names_have_umbrellas benchmarks oss_fuzz_benchmarks e n :
  In n (snd (generate_entry benchmarks oss_fuzz_benchmarks e)) ->
  In ("build-" ++ n ++ "-all")%string
     (targets (fst (generate_entry benchmarks oss_fuzz_benchmarks e)))
  /\ In ("pull-" ++ n ++ "-all")%string
        (targets (fst (generate_entry benchmarks oss_fuzz_benchmarks e))).
Proof.
  unfold generate_entry.
  destruct (fuzzer_isdir e); cbn [negb fst snd]; [|contradiction].
  destruct (variants e) as [vs|]; cbn [fst snd].
  - intros [<- | Hn].
    + rewrite targets_app, !in_app_iff.
      destruct (umbrella_in_targets (fuzzer_name e) benchmarks
                  oss_fuzz_benchmarks None). auto.
    + apply in_map_iff in Hn as (v & <- & Hv).
      rewrite targets_app, targets_flat_map, !in_app_iff, !in_flat_map.
      destruct (umbrella_in_targets (fuzzer_name e) benchmarks
                  oss_fuzz_benchmarks (Some v)).
      split; right; exists v; auto.
  - intros [<- | []].
    apply (umbrella_in_targets (fuzzer_name e) benchmarks
             oss_fuzz_benchmarks None).
Qed.

Lemma defined_before_main benchmarks_listing fuzzers_listing :
  coverage_without_variants fuzzers_listing ->
  defined_before base_targets
    (rules (main benchmarks_listing fuzzers_listing)).
Proof.
  intros Hcov. rewrite rules_main. cbv zeta.
  set (B := fst (scan_benchmarks benchmarks_listing)).
  set (O := snd (scan_benchmarks benchmarks_listing)).
  apply defined_before_app.
  - rewrite flat_map_concat_map, map_map, <- flat_map_concat_map.
    rewrite rules_flat_map. apply defined_before_flat_map.
    intros e known' Hi He. apply defined_before_entry; [assumption|].
    intros v vs Hdir Hc Hvs. exact (Hcov e v vs He Hdir Hc Hvs).
  - assert (Hall : forall n,
               In n (flat_map snd (map (generate_entry B O) fuzzers_listing)) ->
               In ("build-" ++ n ++ "-all")%string
                  (targets (flat_map fst
                              (map (generate_entry B O) fuzzers_listing)))
               /\ In ("pull-" ++ n ++ "-all")%string
                     (targets (flat_map fst
                                 (map (generate_entry B O) fuzzers_listing)))).
    { intros n Hn. apply in_flat_map in Hn as (g & Hg & Hn).
      apply in_map_iff in Hg as (e & <- & He).
      destruct (entry_names_have_umbrellas B O e n Hn) as [H1 H2].
      rewrite targets_flat_map.
      split; apply in_flat_map; exists (generate_entry B O e);
        (split; [apply in_map; assumption | assumption]). }
    simpl. repeat split; intros p Hp; apply in_map_iff in Hp as (n & <- & Hn);
      destruct (Hall n Hn) as [H1 H2].
    + apply in_or_app. left. exact H1.
    + right. apply in_or_app. left. exact H2.
Qed.

(** C5, as stated, fails: the first rule printed for a fuzzer names
    [base-builder], which the generator prints nowhere. *)
Lemma fuzzer_builder_names_base_builder :
  ~ prerequisites_known []
      (rules (main [standard "libxml_parse"] [plain_fuzzer "afl"])).
Proof.
  intros H.
  assert (Hfirst : exists r post,
             rules (main [standard "libxml_parse"] [plain_fuzzer "afl"])
             = [] ++ r :: post
             /\ target r = ".afl-builder"%string
             /\ In "base-builder"%string (prerequisites r)).
  { eexists _, _. repeat split. left. reflexivity. }
  destruct Hfirst as (r & post & Heq & _ & Hin).
  destruct (H [] r post Heq _ Hin) as [[] | []].
Qed.

(** C5, amended.  When no coverage-only fuzzer declares a variant, every
    prerequisite of every rule make reads is the target of a rule printed
    strictly earlier, or one of the four base targets that the enclosing
    Makefile provides ([base-builder], [pull-base-builder], [base-runner],
    [pull-base-runner]); this holds for every listing of fuzzers, variants,
    standard and OSS-Fuzz benchmarks. *)
Theorem prerequisites_printed_earlier :
  forall (benchmarks_listing : list benchmark_entry)
         (fuzzers_listing : list fuzzer_entry),
    coverage_without_variants fuzzers_listing ->
    forall pre r post,
      rules (main benchmarks_listing fuzzers_listing) = pre ++ r :: post ->
      forall p, In p (prerequisites r) ->
                In p base_targets \/ In p (map target pre).
Proof.
  intros bl fl Hcov. apply defined_before_known.
  now apply defined_before_main.
Qed.

Lemma prerequisites_printed_earlier_witness :
  let fuzzers_listing :=
    [fuzzer_with "afl" [{| name := "afl_fast";
                           env := [("AFL_FAST"%string, YInt 1)] |}];
     plain_fuzzer "coverage"] in
  let rs := rules (main [standard "zlib"; oss_fuzz "oss_p"] fuzzers_listing) in
  coverage_without_variants fuzzers_listing
  /\ (In "build-afl_fast-all"%string base_targets
      \/ In "build-afl_fast-all"%string
            (map target (firstn (List.length rs - 2) rs))).
Proof.
  intros fuzzers_listing rs.
  assert (Hcov : coverage_without_variants fuzzers_listing).
  { intros e v vs [<- | [<- | []]] _ Hc Hvs; discriminate. }
  split; [exact Hcov|].
  apply (prerequisites_printed_earlier
           [standard "zlib"; oss_fuzz "oss_p"] fuzzers_listing Hcov
           (firstn (List.length rs - 2) rs)
           (nth (List.length rs - 2) rs (build_all "" []))
           (skipn (List.length rs - 1) rs)).
  - vm_compute. reflexivity.
  - vm_compute. auto.
Defined.

End AcyclicityClaims.

Section TargetNames.
Import Py GenerateMakefile Spec Examples.
Local Open Scope list_scope.

Lemma split_hyphen_word s :
  hyphen_free s = true -> split_hyphen s = [s].
Proof.
  induction s as [|c rest IH]; [reflexivity|].
  simpl. intros H. apply andb_true_iff in H as [Hc Hrest].
  apply negb_true_iff in Hc. now rewrite Hc, (IH Hrest).
Qed.

Lemma split_hyphen_cons s rest :
  hyphen_free s = true ->
  split_hyphen (s ++ "-" ++ rest)%string = s :: split_hyphen rest.
Proof.
  induction s as [|c s IH]; [reflexivity|].
  simpl. intros H. apply andb_true_iff in H as [Hc Hs].
  apply negb_true_iff in Hc. simpl in IH. now rewrite Hc, (IH Hs).
Qed.

Lemma split_hyphen_join (ws : list string) :
  ws <> [] -> Forall (fun w => hyphen_free w = true) ws ->
  split_hyphen (join "-" ws) = ws.
Proof.
  induction ws as [|w rest IH]; [congruence|].
  intros _ Hf. inversion Hf as [|? ? Hw Hrest]; subst.
  destruct rest as [|w' rest'].
  - simpl. now apply split_hyphen_word.
  - change (join "-" (w :: w' :: rest'))
      with (w ++ "-" ++ join "-" (w' :: rest'))%string.
    rewrite split_hyphen_cons by assumption.
    rewrite IH; [reflexivity | discriminate | assumption].
Qed.

Lemma image_words_hyphen_free kind :
  Forall (fun w => hyphen_free w = true) (image_words kind).
Proof. destruct kind; repeat constructor. Qed.

Lemma convenience_words_hyphen_free c :
  Forall (fun w => hyphen_free w = true) (convenience_words c).
Proof. destruct c; repeat constructor. Qed.

Lemma hidden_hyphen_free pull fuzzer :
  hyphen_free fuzzer = true ->
  Forall (fun w => hyphen_free w = true) (hidden pull fuzzer).
Proof. intros H. destruct pull; repeat constructor; assumption. Qed.

Lemma words_hyphen_free k :
  well_named k = true ->
  words k <> [] /\ Forall (fun w => hyphen_free w = true) (words k).
Proof.
  destruct k as [pull f | pull f b kind | c n b | pull n | pull]; simpl;
    intros H; repeat (apply andb_true_iff in H as [H ?]).
  - split; [destruct pull; discriminate|].
    apply Forall_app. split; [now apply hidden_hyphen_free|].
    repeat constructor.
  - split; [destruct pull; discriminate|].
    apply Forall_app. split; [now apply hidden_hyphen_free|].
    constructor; [assumption | apply image_words_hyphen_free].
  - split; [destruct c; discriminate|].
    apply Forall_app. split; [apply convenience_words_hyphen_free|].
    repeat constructor; assumption.
  - split; [discriminate|]. destruct pull; repeat constructor; assumption.
  - split; [discriminate|]. destruct pull; repeat constructor.
Qed.

Lemma split_name_of k :
  well_named k = true -> split_hyphen (name_of k) = words k.
Proof.
  intros H. destruct (words_hyphen_free k H).
  now apply split_hyphen_join.
Qed.

Lemma not_pull f : negb (String.eqb f "pull") = true -> f <> "pull"%string.
Proof. intros H ->. discriminate. Qed.

(** Two well-named keys with the same words are the same key. *)
Lemma words_injective k1 k2 :
  well_named k1 = true -> well_named k2 = true ->
  words k1 = words k2 -> k1 = k2.
Proof.
  destruct k1 as [p1 f1 | p1 f1 b1 kind1 | c1 n1 b1 | p1 n1 | p1];
    destruct k2 as [p2 f2 | p2 f2 b2 kind2 | c2 n2 b2 | p2 n2 | p2];
    simpl; intros H1 H2;
    repeat match goal with
           | H : _ && _ = true |- _ => apply andb_true_iff in H as [H ?]
           | H : negb (String.eqb _ _) = true |- _ => apply not_pull in H
           end;
    repeat match goal with
           | H : negb (String.eqb ?b "all") = true |- _ =>
               assert (b <> "all"%string) by (intros ->; discriminate);
               clear H
           end;
    try destruct p1; try destruct p2;
    try destruct kind1; try destruct kind2;
    try destruct c1; try destruct c2;
    simpl; intros Heq; congruence.
Qed.

Lemma name_of_injective k1 k2 :
  well_named k1 = true -> well_named k2 = true ->
  name_of k1 = name_of k2 -> k1 = k2.
Proof.
  intros H1 H2 Heq. apply words_injective; try assumption.
  rewrite <- (split_name_of k1 H1), <- (split_name_of k2 H2).
  now rewrite Heq.
Qed.

End TargetNames.

Section TargetKeys.
Import Py GenerateMakefile Spec Examples.
Local Open Scope list_scope.

Lemma map_flat_map {A B C} (f : B -> C) (g : A -> list B) (l : list A) :
  map f (flat_map g l) = flat_map (fun x => map f (g x)) l.
Proof.
  induction l as [|x l IH]; [reflexivity|].
  simpl. now rewrite map_app, IH.
Qed.

Lemma targets_fuzzer_template fuzzer :
  targets (print (FUZZER_TEMPLATE fuzzer BASE_TAG))
  = map name_of (fuzzer_keys fuzzer).
Proof. reflexivity. Qed.

Lemma targets_benchmark_template fuzzer b :
  targets (print (FUZZER_BENCHMARK_TEMPLATE fuzzer fuzzer EmptyString b
                    BASE_TAG))
  = map name_of (benchmark_keys fuzzer b).
Proof.
  unfold targets, rules, benchmark_keys. simpl.
  destruct (is_coverage fuzzer); reflexivity.
Qed.

Lemma targets_oss_benchmark_template fuzzer b :
  targets (print (OSS_FUZZER_BENCHMARK_TEMPLATE fuzzer fuzzer EmptyString b
                    BASE_TAG))
  = map name_of (oss_benchmark_keys fuzzer b).
Proof.
  unfold targets, rules, oss_benchmark_keys. simpl.
  destruct (is_coverage fuzzer); reflexivity.
Qed.

Lemma targets_run_targets oss fuzzer n injected b :
  targets (print (map Plain (run_targets oss fuzzer n injected b BASE_TAG)))
  = map name_of (convenience_keys false n b).
Proof. reflexivity. Qed.

Lemma targets_own fuzzer benchmarks oss_fuzz_benchmarks :
  targets (generate_fuzzer fuzzer benchmarks oss_fuzz_benchmarks None)
  = map name_of (own_keys benchmarks oss_fuzz_benchmarks fuzzer).
Proof.
  rewrite generate_fuzzer_shape. unfold per_benchmark, own_keys.
  rewrite !targets_app, !map_app, !targets_flat_map, !map_flat_map.
  rewrite targets_fuzzer_template.
  rewrite (flat_map_ext _ _ (targets_benchmark_template fuzzer)).
  rewrite (flat_map_ext _ _ (targets_oss_benchmark_template fuzzer)).
  rewrite <- !app_assoc. reflexivity.
Qed.

Lemma targets_variant fuzzer benchmarks oss_fuzz_benchmarks v :
  targets (generate_fuzzer fuzzer benchmarks oss_fuzz_benchmarks (Some v))
  = map name_of (variant_keys benchmarks oss_fuzz_benchmarks v).
Proof.
  rewrite generate_fuzzer_shape. unfold per_benchmark, variant_keys.
  rewrite !targets_app, !map_app, !targets_flat_map, !map_flat_map.
  rewrite <- !app_assoc. reflexivity.
Qed.

Lemma targets_entry benchmarks oss_fuzz_benchmarks e :
  targets (fst (generate_entry benchmarks oss_fuzz_benchmarks e))
  = map name_of (entry_keys benchmarks oss_fuzz_benchmarks e).
Proof.
  unfold generate_entry, entry_keys.
  destruct (fuzzer_isdir e); cbn [negb fst]; [|reflexivity].
  destruct (variants e) as [vs|]; cbn [fst].
  - rewrite targets_app, map_app, targets_own, targets_flat_map, map_flat_map.
    f_equal. apply flat_map_ext. intros v. apply targets_variant.
  - now rewrite targets_own, app_nil_r.
Qed.

Lemma snd_generate_entry benchmarks oss_fuzz_benchmarks e :
  snd (generate_entry benchmarks oss_fuzz_benchmarks e) = entry_names e.
Proof.
  unfold generate_entry, entry_names.
  destruct (fuzzer_isdir e); [|reflexivity].
  destruct (variants e); reflexivity.
Qed.

(** The targets make reads from the output of [main] are the names of
    [main_keys], in order. *)
Lemma targets_main benchmarks_listing fuzzers_listing :
  targets (main benchmarks_listing fuzzers_listing)
  = map name_of (main_keys (fst (scan_benchmarks benchmarks_listing))
                   (snd (scan_benchmarks benchmarks_listing))
                   fuzzers_listing).
Proof.
  unfold targets. rewrite rules_main. cbv zeta.
  rewrite map_app. unfold main_keys. rewrite map_app. f_equal.
  rewrite flat_map_concat_map, map_map, <- flat_map_concat_map.
  rewrite map_flat_map.
  change (map target (rules ?x)) with (targets x).
  rewrite targets_flat_map. apply flat_map_ext. intros e.
  apply targets_entry.
Qed.

End TargetKeys.

Section UniqueKeys.
Import Py GenerateMakefile Spec Examples.
Local Open Scope list_scope.

Lemma NoDup_app_disjoint {A} (a b : list A) x :
  NoDup (a ++ b) -> In x a -> In x b -> False.
Proof.
  induction a as [|y a IH]; simpl; intros Hn Ha Hb; [contradiction|].
  inversion Hn as [|? ? Hy Hrest]; subst. destruct Ha as [-> | Ha].
  - apply Hy, in_or_app. right. assumption.
  - now apply IH.
Qed.

(** Pieces filed under disjoint lists of names have no common element. *)
Lemma NoDup_flat_map_by {A K T} (tag : K -> T) (names : A -> list T)
      (g : A -> list K) (l : list A) :
  (forall x k, In x l -> In k (g x) -> In (tag k) (names x)) ->
  (forall x, In x l -> NoDup (g x)) ->
  NoDup (flat_map names l) ->
  NoDup (flat_map g l).
Proof.
  induction l as [|x l IH]; intros Htag Hg Hn; [constructor|].
  simpl in *. apply NoDup_app.
  - apply Hg. left. reflexivity.
  - apply IH; [intros; apply Htag; auto | intros; apply Hg; auto |].
    eapply NoDup_app_remove_l, Hn.
  - intros k Hk Hk'. apply in_flat_map in Hk' as (y & Hy & Hky).
    apply (NoDup_app_disjoint _ _ (tag k) Hn).
    + apply Htag; auto.
    + apply in_flat_map. exists y. split; [assumption|].
      apply Htag; auto.
Qed.

Lemma flat_map_singleton {A B} (f : A -> B) (l : list A) :
  flat_map (fun x => [f x]) l = map f l.
Proof. induction l as [|x l IH]; [reflexivity | simpl; now rewrite IH]. Qed.

Lemma convenience_keys_filed coverage n b :
  Forall (filed n b) (convenience_keys coverage n b).
Proof. destruct coverage; repeat constructor. Qed.

Lemma benchmark_keys_filed fuzzer b :
  Forall (filed fuzzer b) (benchmark_keys fuzzer b).
Proof.
  unfold benchmark_keys. destruct (is_coverage fuzzer); repeat constructor.
Qed.

Lemma oss_benchmark_keys_filed fuzzer b :
  Forall (filed fuzzer b) (oss_benchmark_keys fuzzer b).
Proof.
  unfold oss_benchmark_keys. destruct (is_coverage fuzzer); repeat constructor.
Qed.

Lemma convenience_keys_NoDup coverage n b :
  NoDup (convenience_keys coverage n b).
Proof.
  destruct coverage; repeat (constructor; [simpl; intuition discriminate|]);
    constructor.
Qed.

Lemma benchmark_keys_NoDup fuzzer b : NoDup (benchmark_keys fuzzer b).
Proof.
  unfold benchmark_keys. destruct (is_coverage fuzzer);
    repeat (constructor; [simpl; intuition discriminate|]); constructor.
Qed.

Lemma oss_benchmark_keys_NoDup fuzzer b :
  NoDup (oss_benchmark_keys fuzzer b).
Proof.
  unfold oss_benchmark_keys. destruct (is_coverage fuzzer);
    repeat (constructor; [simpl; intuition discriminate|]); constructor.
Qed.

(** The keys of one fuzzer, or variant, over a list of benchmarks. *)
Lemma per_benchmark_keys_NoDup (g : string -> list key) n (bs : list string) :
  (forall b, Forall (filed n b) (g b)) ->
  (forall b, NoDup (g b)) ->
  NoDup bs ->
  NoDup (flat_map g bs).
Proof.
  intros Hf Hg Hn.
  apply (NoDup_flat_map_by benchmark_of (fun b => [b])); auto.
  - intros b k _ Hk. left.
    destruct (proj1 (Forall_forall _ _) (Hf b) k Hk) as (_ & Hb & _).
    now symmetry.
  - now rewrite flat_map_singleton, map_id.
Qed.

Lemma per_benchmark_keys_filed (g : string -> list key) n (bs : list string) k :
  (forall b, Forall (filed n b) (g b)) ->
  In k (flat_map g bs) ->
  owner k = n /\ In (benchmark_of k) bs /\ per_benchmark_key k = true.
Proof.
  intros Hf Hk. apply in_flat_map in Hk as (b & Hb & Hk).
  destruct (proj1 (Forall_forall _ _) (Hf b) k Hk) as (Ho & <- & Hp).
  auto.
Qed.

Lemma in_own_keys benchmarks oss_fuzz_benchmarks fuzzer k :
  In k (own_keys benchmarks oss_fuzz_benchmarks fuzzer) ->
  owner k = fuzzer
  /\ (per_benchmark_key k = true ->
      In (benchmark_of k) (benchmarks ++ oss_fuzz_benchmarks))
  /\ k <> KTop false /\ k <> KTop true.
Proof.
  unfold own_keys. rewrite !in_app_iff.
  intros [Hk | [Hk | [Hk | Hk]]].
  - destruct Hk as [<- | [<- | []]]; repeat split; discriminate.
  - destruct (per_benchmark_keys_filed _ fuzzer _ k
                (benchmark_keys_filed fuzzer) Hk) as (Ho & Hb & Hp).
    repeat split; auto; intros ->; discriminate.
  - destruct (per_benchmark_keys_filed _ fuzzer _ k
                (oss_benchmark_keys_filed fuzzer) Hk) as (Ho & Hb & Hp).
    repeat split; auto; intros ->; discriminate.
  - destruct Hk as [<- | [<- | []]]; repeat split; discriminate.
Qed.

Lemma in_variant_keys benchmarks oss_fuzz_benchmarks v k :
  In k (variant_keys benchmarks oss_fuzz_benchmarks v) ->
  owner k = name v
  /\ (per_benchmark_key k = true ->
      In (benchmark_of k) (benchmarks ++ oss_fuzz_benchmarks))
  /\ k <> KTop false /\ k <> KTop true.
Proof.
  unfold variant_keys. rewrite app_assoc, <- flat_map_app.
  intros Hk. apply in_app_or in Hk as [Hk | Hk].
  - destruct (per_benchmark_keys_filed _ (name v) _ k
                (convenience_keys_filed false (name v)) Hk) as (Ho & Hb & Hp).
    repeat split; auto; intros ->; discriminate.
  - destruct Hk as [<- | [<- | []]]; repeat split; discriminate.
Qed.

Lemma own_keys_NoDup benchmarks oss_fuzz_benchmarks fuzzer :
  NoDup (benchmarks ++ oss_fuzz_benchmarks) ->
  NoDup (own_keys benchmarks oss_fuzz_benchmarks fuzzer).
Proof.
  intros Hn. unfold own_keys.
  assert (HB : NoDup benchmarks) by (eapply NoDup_app_remove_r, Hn).
  assert (HO : NoDup oss_fuzz_benchmarks) by (eapply NoDup_app_remove_l, Hn).
  apply NoDup_app; [| apply NoDup_app; [| apply NoDup_app |] |].
  - repeat (constructor; [simpl; intuition discriminate|]); constructor.
  - apply (per_benchmark_keys_NoDup _ fuzzer);
      auto using benchmark_keys_filed, benchmark_keys_NoDup.
  - apply (per_benchmark_keys_NoDup _ fuzzer);
      auto using oss_benchmark_keys_filed, oss_benchmark_keys_NoDup.
  - repeat (constructor; [simpl; intuition discriminate|]); constructor.
  - intros k Hk Hall.
    destruct (per_benchmark_keys_filed _ fuzzer _ k
                (oss_benchmark_keys_filed fuzzer) Hk) as (_ & _ & Hp).
    destruct Hall as [<- | [<- | []]]; discriminate.
  - intros k Hk Hk'. apply in_app_or in Hk' as [Hk' | Hall].
    + destruct (per_benchmark_keys_filed _ fuzzer _ k
                  (benchmark_keys_filed fuzzer) Hk) as (_ & Hb & _).
      destruct (per_benchmark_keys_filed _ fuzzer _ k
                  (oss_benchmark_keys_filed fuzzer) Hk') as (_ & Hb' & _).
      exact (NoDup_app_disjoint _ _ _ Hn Hb Hb').
    + destruct (per_benchmark_keys_filed _ fuzzer _ k
                  (benchmark_keys_filed fuzzer) Hk) as (_ & _ & Hp).
      destruct Hall as [<- | [<- | []]]; discriminate.
  - intros k Hk Hk'. destruct Hk as [<- | [<- | []]];
      repeat (apply in_app_or in Hk' as [Hk' | Hk']);
      try (destruct (per_benchmark_keys_filed _ fuzzer _ _
                       (benchmark_keys_filed fuzzer) Hk') as (_ & _ & Hp);
           discriminate);
      try (destruct (per_benchmark_keys_filed _ fuzzer _ _
                       (oss_benchmark_keys_filed fuzzer) Hk') as (_ & _ & Hp);
           discriminate);
      destruct Hk' as [Hk' | [Hk' | []]]; discriminate.
Qed.

Lemma variant_keys_NoDup benchmarks oss_fuzz_benchmarks v :
  NoDup (benchmarks ++ oss_fuzz_benchmarks) ->
  NoDup (variant_keys benchmarks oss_fuzz_benchmarks v).
Proof.
  intros Hn. unfold variant_keys. rewrite app_assoc, <- flat_map_app.
  apply NoDup_app.
  - apply (per_benchmark_keys_NoDup _ (name v));
      auto using convenience_keys_filed, convenience_keys_NoDup.
  - repeat (constructor; [simpl; intuition discriminate|]); constructor.
  - intros k Hk Hall.
    destruct (per_benchmark_keys_filed _ (name v) _ k
                (convenience_keys_filed false (name v)) Hk) as (_ & _ & Hp).
    destruct Hall as [<- | [<- | []]]; discriminate.
Qed.

End UniqueKeys.

Section UniqueTargets.
Import Py GenerateMakefile Spec Examples.
Local Open Scope list_scope.

Lemma convenience_keys_not_hidden coverage n b :
  Forall (fun k => hidden_key k = false) (convenience_keys coverage n b).
Proof. destruct coverage; repeat constructor. Qed.

Lemma variant_keys_not_hidden benchmarks oss_fuzz_benchmarks v k :
  In k (variant_keys benchmarks oss_fuzz_benchmarks v) ->
  hidden_key k = false.
Proof.
  unfold variant_keys. rewrite !in_app_iff, !in_flat_map.
  intros [(b & _ & Hk) | [(b & _ & Hk) | Hk]].
  - exact (proj1 (Forall_forall _ _)
             (convenience_keys_not_hidden false (name v) b) k Hk).
  - exact (proj1 (Forall_forall _ _)
             (convenience_keys_not_hidden false (name v) b) k Hk).
  - destruct Hk as [<- | [<- | []]]; reflexivity.
Qed.

Lemma in_entry_keys benchmarks oss_fuzz_benchmarks e k :
  In k (entry_keys benchmarks oss_fuzz_benchmarks e) ->
  fuzzer_isdir e = true
  /\ In (owner k) (entry_names e)
  /\ (per_benchmark_key k = true ->
      In (benchmark_of k) (benchmarks ++ oss_fuzz_benchmarks))
  /\ (hidden_key k = true -> owner k = fuzzer_name e)
  /\ k <> KTop false /\ k <> KTop true.
Proof.
  unfold entry_keys, entry_names.
  destruct (fuzzer_isdir e); cbn [negb]; [|contradiction].
  intros Hk. split; [reflexivity|].
  apply in_app_or in Hk as [Hk | Hk].
  - destruct (in_own_keys _ _ _ _ Hk) as (Ho & Hb & Ht).
    repeat split; try tauto. left. now symmetry.
  - destruct (variants e) as [vs|]; [|contradiction].
    apply in_flat_map in Hk as (v & Hv & Hk).
    destruct (in_variant_keys _ _ _ _ Hk) as (Ho & Hb & Ht).
    repeat split; try tauto.
    + right. rewrite Ho. now apply in_map.
    + intros Hh. rewrite (variant_keys_not_hidden _ _ _ _ Hk) in Hh.
      discriminate.
Qed.

Lemma entry_keys_NoDup benchmarks oss_fuzz_benchmarks e :
  NoDup (benchmarks ++ oss_fuzz_benchmarks) ->
  NoDup (entry_names e) ->
  NoDup (entry_keys benchmarks oss_fuzz_benchmarks e).
Proof.
  intros Hb. unfold entry_keys, entry_names.
  destruct (fuzzer_isdir e); cbn [negb]; [|constructor].
  intros Hn. inversion Hn as [|? ? Hf Hvs]; subst.
  apply NoDup_app; [now apply own_keys_NoDup | |].
  - destruct (variants e) as [vs|]; [|constructor].
    apply (NoDup_flat_map_by owner (fun v => [name v])).
    + intros v k _ Hk. left. symmetry. apply (in_variant_keys _ _ _ _ Hk).
    + intros v _. now apply variant_keys_NoDup.
    + now rewrite flat_map_singleton.
  - intros k Hk Hk'. destruct (variants e) as [vs|]; [|contradiction].
    apply in_flat_map in Hk' as (v & Hv & Hk').
    apply Hf. destruct (in_own_keys _ _ _ _ Hk) as (<- & _).
    destruct (in_variant_keys _ _ _ _ Hk') as (-> & _).
    now apply in_map.
Qed.

Lemma main_keys_NoDup benchmarks oss_fuzz_benchmarks fuzzers_listing :
  NoDup (benchmarks ++ oss_fuzz_benchmarks) ->
  NoDup (fuzzers_and_variants fuzzers_listing) ->
  NoDup (main_keys benchmarks oss_fuzz_benchmarks fuzzers_listing).
Proof.
  intros Hb Hn. unfold main_keys. apply NoDup_app.
  - apply (NoDup_flat_map_by owner entry_names); [| |exact Hn].
    + intros e k _ Hk. apply (in_entry_keys _ _ _ _ Hk).
    + intros e He. apply entry_keys_NoDup; [assumption|].
      unfold fuzzers_and_variants in Hn. clear -Hn He.
      induction fuzzers_listing as [|x l IH]; [contradiction|].
      simpl in Hn. destruct He as [-> | He].
      * eapply NoDup_app_remove_r, Hn.
      * apply IH; [eapply NoDup_app_remove_l, Hn | assumption].
  - repeat (constructor; [simpl; intuition discriminate|]); constructor.
  - intros k Hk Htop. apply in_flat_map in Hk as (e & _ & Hk).
    destruct (in_entry_keys _ _ _ _ Hk) as (_ & _ & _ & _ & H1 & H2).
    destruct Htop as [<- | [<- | []]]; congruence.
Qed.

Lemma well_named_intro k :
  hyphen_free (owner k) = true ->
  (per_benchmark_key k = true ->
   hyphen_free (benchmark_of k) = true /\ benchmark_of k <> "all"%string) ->
  (hidden_key k = true -> owner k <> "pull"%string) ->
  well_named k = true.
Proof.
  assert (Hneq : forall a b : string, a <> b -> negb (String.eqb a b) = true).
  { intros a b H. apply negb_true_iff, String.eqb_neq, H. }
  destruct k as [pull f | pull f b kind | c n b | pull n | pull]; simpl;
    intros Ho Hb Hh; try reflexivity; try assumption;
    try destruct (Hb eq_refl) as [Hb1 Hb2];
    rewrite Ho; try rewrite Hb1; simpl;
    try (rewrite Hneq; [reflexivity | auto]).
Qed.

Lemma main_keys_well_named benchmarks oss_fuzz_benchmarks fuzzers_listing k :
  Forall (fun b => hyphen_free b = true) (benchmarks ++ oss_fuzz_benchmarks) ->
  Forall (fun n => hyphen_free n = true)
         (fuzzers_and_variants fuzzers_listing) ->
  ~ In "all"%string (benchmarks ++ oss_fuzz_benchmarks) ->
  ~ In "pull"%string (fuzzers fuzzers_listing) ->
  In k (main_keys benchmarks oss_fuzz_benchmarks fuzzers_listing) ->
  well_named k = true.
Proof.
  intros Hb Hn Hall Hpull Hk. unfold main_keys in Hk.
  apply in_app_or in Hk as [Hk | [<- | [<- | []]]]; try reflexivity.
  apply in_flat_map in Hk as (e & He & Hk).
  destruct (in_entry_keys _ _ _ _ Hk) as (Hdir & Ho & Hbench & Hh & _).
  apply well_named_intro.
  - apply (proj1 (Forall_forall _ _) Hn).
    apply in_flat_map. exists e. auto.
  - intros Hp. specialize (Hbench Hp). split.
    + apply (proj1 (Forall_forall _ _) Hb), Hbench.
    + intros Heq. apply Hall. now rewrite <- Heq.
  - intros Hhid Heq. apply Hpull. rewrite <- Heq, (Hh Hhid).
    unfold fuzzers. apply in_map, filter_In. auto.
Qed.

End UniqueTargets.

Section UniquenessClaims.
Import Py GenerateMakefile Spec Examples.
Local Open Scope list_scope.

Lemma repeated_element_not_NoDup {A} (l : list A) (i j : nat) (x : A) :
  i <> j -> nth_error l i = Some x -> nth_error l j = Some x -> ~ NoDup l.
Proof.
  intros Hij Hi Hj Hn. apply Hij.
  apply (proj1 (NoDup_nth_error l) Hn).
  - apply nth_error_Some. congruence.
  - congruence.
Qed.

(** C8, as stated, fails.  Names are joined by hyphens and may hold
    hyphens: the builder image of the fuzzer [afl] for the benchmark
    [fast-zlib] and that of the fuzzer [afl-fast] for the benchmark [zlib]
    have the same name. *)
Lemma hyphenated_names_collide :
  ~ NoDup (targets (main [standard "fast-zlib"; standard "zlib"]
                         [plain_fuzzer "afl"; plain_fuzzer "afl-fast"])).
Proof.
  apply (repeated_element_not_NoDup _ 2 39 ".afl-fast-zlib-builder"%string);
    [discriminate | reflexivity | reflexivity].
Qed.

(** A benchmark directory with both a [build.sh] and an [oss-fuzz.yaml] is
    appended to both lists of [main]; its five convenience targets are then
    printed twice for every fuzzer. *)
Lemma both_markers_duplicate_targets :
  scan_benchmarks [both_kinds "zlib"] = (["zlib"%string], ["zlib"%string])
  /\ ~ NoDup (targets (main [both_kinds "zlib"] [plain_fuzzer "afl"])).
Proof.
  split; [reflexivity|].
  apply (repeated_element_not_NoDup _ 8 21 "build-afl-zlib"%string);
    [discriminate | reflexivity | reflexivity].
Qed.

Lemma scan_benchmarks_names listing x :
  In x (fst (scan_benchmarks listing) ++ snd (scan_benchmarks listing)) ->
  In x (map benchmark_name listing).
Proof.
  induction listing as [|e rest IH]; simpl; [auto|].
  destruct (scan_benchmarks rest) as [B O]. simpl in IH.
  destruct (benchmark_isdir e); simpl; [|auto].
  destruct (has_build_sh e), (has_oss_fuzz_yaml e); simpl;
    rewrite ?in_app_iff in *; simpl; intuition.
Qed.

(** The two lists of [main] share no name when the directory names are
    distinct and no directory holds both marker files. *)
Lemma scan_benchmarks_NoDup listing :
  NoDup (map benchmark_name listing) ->
  (forall e, In e listing ->
             has_build_sh e && has_oss_fuzz_yaml e = false) ->
  NoDup (fst (scan_benchmarks listing) ++ snd (scan_benchmarks listing)).
Proof.
  induction listing as [|e rest IH]; intros Hn Hone; [constructor|].
  inversion Hn as [|? ? Hfresh Hrest]; subst.
  assert (Hnew : ~ In (benchmark_name e)
                   (fst (scan_benchmarks rest) ++ snd (scan_benchmarks rest))).
  { intros H. apply Hfresh. now apply scan_benchmarks_names. }
  specialize (IH Hrest (fun e' He' => Hone e' (or_intror He'))).
  specialize (Hone e (or_introl eq_refl)).
  simpl. destruct (scan_benchmarks rest) as [B O]. simpl in *.
  destruct (benchmark_isdir e); simpl; [|assumption].
  destruct (has_build_sh e), (has_oss_fuzz_yaml e); simpl;
    try discriminate; try assumption.
  - constructor; assumption.
  - apply (NoDup_incl_NoDup (l := benchmark_name e :: B ++ O)).
    + constructor; assumption.
    + rewrite !length_app. simpl. rewrite length_app. lia.
    + intros x [<- | Hx]; apply in_or_app.
      * right. left. reflexivity.
      * apply in_app_or in Hx as [Hx | Hx]; [left | right; right];
          assumption.
Qed.

(** C8, amended.  The target names make reads from one run are pairwise
    distinct when: no benchmark name occurs twice in the list of standard
    benchmarks followed by the list of OSS-Fuzz benchmarks (so no
    directory counts as both kinds), the names of the fuzzers and of their
    variants are pairwise distinct, none of these names holds a hyphen, no
    benchmark is called [all] and no fuzzer directory is called [pull]. *)
Theorem target_names_unique :
  forall (benchmarks_listing : list benchmark_entry)
         (fuzzers_listing : list fuzzer_entry),
    let benchmarks := fst (scan_benchmarks benchmarks_listing) in
    let oss_fuzz_benchmarks := snd (scan_benchmarks benchmarks_listing) in
    NoDup (benchmarks ++ oss_fuzz_benchmarks) ->
    NoDup (fuzzers_and_variants fuzzers_listing) ->
    Forall (fun b => hyphen_free b = true)
           (benchmarks ++ oss_fuzz_benchmarks) ->
    Forall (fun n => hyphen_free n = true)
           (fuzzers_and_variants fuzzers_listing) ->
    ~ In "all"%string (benchmarks ++ oss_fuzz_benchmarks) ->
    ~ In "pull"%string (fuzzers fuzzers_listing) ->
    NoDup (targets (main benchmarks_listing fuzzers_listing)).
Proof.
  intros bl fl B O Hb Hn Hhb Hhn Hall Hpull.
  rewrite targets_main. fold B O.
  apply NoDup_map_NoDup_ForallPairs; [|now apply main_keys_NoDup].
  intros k1 k2 H1 H2 Heq.
  apply name_of_injective; try assumption;
    eapply main_keys_well_named; eassumption.
Qed.

Lemma target_names_unique_witness :
  let benchmarks_listing := [standard "zlib"; oss_fuzz "oss_p"] in
  let fuzzers_listing :=
    [fuzzer_with "afl" [{| name := "afl_fast";
                           env := [("AFL_FAST"%string, YInt 1)] |}];
     plain_fuzzer "coverage"] in
  NoDup (fst (scan_benchmarks benchmarks_listing)
         ++ snd (scan_benchmarks benchmarks_listing))
  /\ NoDup (fuzzers_and_variants fuzzers_listing)
  /\ NoDup (targets (main benchmarks_listing fuzzers_listing)).
Proof.
  intros benchmarks_listing fuzzers_listing.
  assert (Hb : NoDup (fst (scan_benchmarks benchmarks_listing)
                      ++ snd (scan_benchmarks benchmarks_listing))).
  { repeat (constructor; [simpl; intuition discriminate|]). constructor. }
  assert (Hn : NoDup (fuzzers_and_variants fuzzers_listing)).
  { repeat (constructor; [simpl; intuition discriminate|]). constructor. }
  split; [exact Hb|]. split; [exact Hn|].
  apply (target_names_unique benchmarks_listing fuzzers_listing Hb Hn).
  - repeat constructor.
  - repeat constructor.
  - simpl. intuition discriminate.
  - simpl. intuition discriminate.
Defined.

End UniquenessClaims.
